(** * Callable variables of the SOT opcode translator

    A shallow embedding of
    [sot/opcode_translator/executor/variables/callable.py]: the hierarchy of
    traced variables that can be invoked ([CallableVariable] and its
    subclasses), their [call_function] methods, the construction of bound
    methods ([FunctionVariable.bind], [MethodVariable.wrap_method]) and the
    guards of layers ([LayerVariable.make_stringify_guard]).

    Python objects of the traced program are values of an abstract type
    [PyObj]; traced variables live in a heap and are referred to by their
    index, so that a tracker written after construction is seen through
    every reference, as in Python.  Exceptions are outcomes of a state
    monad whose state survives a raise, as Python's mutations do. *)

From Stdlib Require Import ZArith.
From stdpp Require Import base option list strings gmap pretty.

Open Scope string_scope.
Open Scope list_scope.
Open Scope nat_scope.

(** ** The traced program's objects *)

(** What the translator observes of a Python object.  [py_getattr o n] is
    [None] where Python raises [AttributeError]; [hasattr(o, n)] is the test
    that it is not. *)
Class Host := {
  PyObj : Type;
  PyObj_eq_dec :: EqDecision PyObj;
  (** [o.__name__] *)
  py_name : PyObj → option string;
  (** [str(o)], as an f-string formats [o] *)
  py_str : PyObj → string;
  (** [type(o)] *)
  py_type : PyObj → PyObj;
  py_getattr : PyObj → string → option PyObj;
  (** [id(o)] *)
  py_id : PyObj → Z;
  (** [None] and string literals *)
  py_None : PyObj;
  py_of_string : string → PyObj;
  (** [types.MethodType] and [paddle.static.Variable] *)
  py_MethodType : PyObj;
  paddle_static_Variable : PyObj;
  (** the debug intrinsics of [sot.utils] *)
  ASSERT : PyObj;
  psdb_print : PyObj;
  psdb_breakpoint : PyObj;
  (** [layer.training] of a [paddle.nn.Layer], which [Layer.__init__] sets *)
  layer_training : PyObj → PyObj;
  (** the tests the [from_value] constructors make on a value *)
  isinstance_FunctionType : PyObj → bool;
  callable : PyObj → bool;
  ismethod : PyObj → bool;
  ismethoddescriptor : PyObj → bool;
  isgeneratorfunction : PyObj → bool;
  isinstance_Layer : PyObj → bool;
  isinstance_Sequential : PyObj → bool;
  has_forward_pre_hooks : PyObj → bool;
  has_forward_post_hooks : PyObj → bool;
  (** [value.__module__.startswith("paddle.nn.")] *)
  module_in_paddle_nn : PyObj → bool;
}.

(** ** Trackers, variables, exceptions *)

(** A variable is referred to by its index in the heap. *)
Abbreviation VarId := nat.

Abbreviation Kwargs := (gmap string VarId).

Section Data.
Context `{HostI : Host}.

(** The trackers of [..tracker] this file constructs, and [FrameTracker] for
    those that read a value off the frame (locals, globals, constants). *)
Inductive Tracker :=
| DanglingTracker
| DummyTracker (inputs : list VarId)
| GetAttrTracker (obj : VarId) (attr : string)
| ConstTracker (value : PyObj)
| FrameTracker (expr : string).

(** The classes of variables and their fields.  The [proxy] of a layer holds
    the attributes read so far, by name.  [ConstantVariable] and
    [PrintStmtVariable] are those of [.basic]; [ObjectVariable] stands for
    the variables of the other modules, which wrap a value. *)
Inductive VarKind :=
| UserDefinedFunctionVariable (value : PyObj)
| PaddleApiVariable (value : PyObj)
| TensorFunctionVariable (value : PyObj) (method_name : string)
| MethodVariable (bound_instance fn : VarId) (method_name : option string)
| UserDefinedLayerVariable (value : PyObj) (proxy : gmap string VarId)
| PaddleLayerVariable (value : PyObj) (proxy : gmap string VarId) (name : string)
| BuiltinVariable (value : PyObj)
| UserDefinedGeneratorVariable (value : PyObj)
| ConstantVariable (value : PyObj)
| PrintStmtVariable (args : list VarId) (kwargs : Kwargs)
| ObjectVariable (value : PyObj).

(** [VariableBase]: the tracker is a field that can be assigned. *)
Record VariableBase := mkVar { tracker : Tracker; kind : VarKind }.

Definition with_tracker (t : Tracker) (v : VariableBase) : VariableBase :=
  mkVar t (kind v).

(** Modelled from the spec: the exceptions of [sot.utils.exceptions] and
    Python's own.  A break-graph condition and the other recoverable tracing
    failures ([FallbackError]) are the [FallbackErrorBase]s; an
    [InnerError] is an internal-consistency error and is not recoverable.
    [BreakGraphError] keeps the argument it was raised with: [None] for
    [BreakGraphError()]. *)
Inductive Exn :=
| BreakGraphError (reason : option string)
| FallbackError (reason : option string)
| InnerError (msg : string)
| NotImplementedError (msg : string)
| AssertionError
| IndexError
| AttributeError
| TypeError
| HostException (msg : string).

(** [isinstance(e, FallbackErrorBase)] *)
Definition is_FallbackErrorBase (e : Exn) : bool :=
  match e with
  | BreakGraphError _ | FallbackError _ => true
  | _ => false
  end.

Definition is_BreakGraphError (e : Exn) : bool :=
  match e with BreakGraphError _ => true | _ => false end.

(** [str(e)]: the single argument, or the empty string without one. *)
Definition exn_str (e : Exn) : string :=
  match e with
  | BreakGraphError r | FallbackError r => default "" r
  | InnerError m | NotImplementedError m | HostException m => m
  | AssertionError | IndexError | AttributeError | TypeError => ""
  end.

(** The reason string a break-graph condition carries, if any. *)
Definition reason_of (e : Exn) : option string :=
  match e with
  | BreakGraphError r => r
  | _ => None
  end.

(** ** The tracing state and its monad *)

(** [graph] is the [FunctionGraph]'s trace; [heap] the variables created so
    far; [layer_name_generator] the number of names taken so far from
    [PaddleLayerVariable.layer_name_generator]. *)
Record State (G : Type) := mkState {
  graph : G;
  heap : list VariableBase;
  layer_name_generator : nat;
}.
Global Arguments mkState {G}.
Global Arguments graph {G}.
Global Arguments heap {G}.
Global Arguments layer_name_generator {G}.

Inductive Outcome (A : Type) :=
| Return (a : A)
| Raise (e : Exn)
| OutOfFuel.
Global Arguments Return {A}.
Global Arguments Raise {A}.
Global Arguments OutOfFuel {A}.

Definition M (G A : Type) : Type := State G → Outcome A * State G.

Definition ret {G A} (a : A) : M G A := λ st, (Return a, st).

Definition bind {G A B} (c : M G A) (k : A → M G B) : M G B :=
  λ st, match c st with
        | (Return a, st') => k a st'
        | (Raise e, st') => (Raise e, st')
        | (OutOfFuel, st') => (OutOfFuel, st')
        end.

Definition raise {G A} (e : Exn) : M G A := λ st, (Raise e, st).

Definition out_of_fuel {G A} : M G A := λ st, (OutOfFuel, st).

(** [try: c  except <caught> as e: handler e] *)
Definition try_except {G A} (c : M G A) (caught : Exn → bool)
    (handler : Exn → M G A) : M G A :=
  λ st, match c st with
        | (Raise e, st') => if caught e then handler e st' else (Raise e, st')
        | r => r
        end.

Definition get_graph {G} : M G G := λ st, (Return (graph st), st).

Definition modify_graph {G} (f : G → G) : M G () :=
  λ st, (Return (), mkState (f (graph st)) (heap st) (layer_name_generator st)).

Definition get_heap {G} : M G (list VariableBase) := λ st, (Return (heap st), st).

(** Constructing a variable puts it at the end of the heap. *)
Definition alloc {G} (v : VariableBase) : M G VarId :=
  λ st, (Return (length (heap st)),
         mkState (graph st) (heap st ++ [v]) (layer_name_generator st)).

(** Reading a variable; an index outside the heap has no Python counterpart
    and ends the run with an [InnerError]. *)
Definition load {G} (i : VarId) : M G VariableBase :=
  λ st, match heap st !! i with
        | Some v => (Return v, st)
        | None => (Raise (InnerError "no such variable"), st)
        end.

(** [var.tracker = t] *)
Definition set_tracker {G} (i : VarId) (t : Tracker) : M G () :=
  λ st, match heap st !! i with
        | Some v => (Return (),
                     mkState (graph st) (<[i := with_tracker t v]> (heap st))
                             (layer_name_generator st))
        | None => (Raise (InnerError "no such variable"), st)
        end.

(** The tracker of variable [i], if [i] is allocated. *)
Definition tracker_of (h : list VariableBase) (i : VarId) : option Tracker :=
  tracker <$> h !! i.

End Data.

Notation "'let*' x ':=' c 'in' k" := (bind c (λ x, k))
  (at level 10, x name, c at level 100, k at level 200, only parsing).

(** ** Collaborators *)

(** [MagicMethod] of [sot.utils.magic_methods]. *)
Record MagicMethod := mkMagicMethod { mm_name : string; is_reverse : bool }.

(** [StringifyExpression] of [..guard]: an expression over the frame and
    the free variables it closes over. *)
Record StringifyExpression `{Host} := mkStringifyExpression {
  expr : string;
  free_vars : gmap string PyObj;
}.

(** The classes that register a [from_value] constructor: those of this
    file, and [OtherVariables] for the classes of the other modules. *)
Inductive VarClass :=
| CUserDefinedFunctionVariable
| CPaddleApiVariable
| CMethodVariable
| CUserDefinedLayerVariable
| CBuiltinVariable
| CUserDefinedGeneratorVariable
| CPaddleLayerVariable
| COtherVariables.

(** What this file imports and calls but does not define: the
    [FunctionGraph], the inline executor, the dispatcher and the tables of
    [sot.utils], the trackers' frame expressions, and calls into the traced
    program.  They are the parameters of the development. *)
Class Env `{HostI : Host} := {
  (** [FunctionGraph] and its [Memo] *)
  Graph : Type;
  Memo : Type;
  save_memo : Graph → Memo;
  restore_memo : Memo → Graph → Graph;
  add_print_variables : VarId → Graph → Graph;
  call_paddle_api : PyObj → list VarId → Kwargs → M Graph VarId;
  call_tensor_method : string → list VarId → Kwargs → M Graph VarId;
  call_layer : VarId → list VarId → Kwargs → M Graph VarId;
  (** [OpcodeInlineExecutor(fn_var, *args, **kwargs)] followed by its
      [inline_call()] under the [EventGuard] *)
  inline_call : VarId → list VarId → Kwargs → M Graph VarId;
  (** [Dispatcher.dispatch]: the handler for a callable and the variables it
      is applied to, if one is registered; the last argument is the heap,
      where the classes of the argument variables are read *)
  Dispatcher_dispatch :
    PyObj → list VarId → Kwargs → list VariableBase →
    option (list VarId → Kwargs → M Graph VarId);
  magic_method_builtin_dispatch : PyObj → list MagicMethod;
  is_break_graph_api : PyObj → bool;
  is_break_graph_tensor_methods : string → bool;
  is_paddle_api : PyObj → bool;
  is_builtin_fn : PyObj → bool;
  (** calling an object of the traced program *)
  py_call : PyObj → list PyObj → Exn + PyObj;
  (** [__call__] of a variable whose class is defined in another module *)
  call_other : VarId → list VarId → Kwargs → M Graph VarId;
  (** [NameGenerator] of [sot.utils]: the name that a call of
      [layer_name_generator.next()] returns when that many names have been
      taken from the generator before *)
  layer_names : nat → string;
  (** the order in which [VariableFactory] tries the registered
      constructors, and the constructors of the other modules *)
  registered_funcs : list VarClass;
  other_from_value : PyObj → option VarKind;
  (** [Tracker.is_traceable] and [Tracker.trace_value_from_frame], which
      follow the trackers of the variables a tracker refers to *)
  is_traceable : list Tracker → Tracker → bool;
  trace_value_from_frame : list Tracker → Tracker → StringifyExpression;
}.

(** ** The classes of callable.py *)

Section Callable.
Context `{HostI : Host} `{EnvI : !Env}.

Local Abbreviation M := (M Graph).

(** The [value] attribute of a variable, for the classes that have one. *)
Definition var_value (k : VarKind) : option PyObj :=
  match k with
  | UserDefinedFunctionVariable value
  | PaddleApiVariable value
  | TensorFunctionVariable value _
  | UserDefinedLayerVariable value _
  | PaddleLayerVariable value _ _
  | BuiltinVariable value
  | UserDefinedGeneratorVariable value
  | ConstantVariable value
  | ObjectVariable value => Some value
  | MethodVariable _ _ _ | PrintStmtVariable _ _ => None
  end.

(** Modelled from the spec: [VariableBase.get_py_type] of [.base], the
    capability by which a Variable reports the type of the value it wraps.
    A bound method is a [types.MethodType]; a print statement wraps no
    value. *)
Definition get_py_type (i : VarId) : M PyObj :=
  let* v := load i in
  match kind v with
  | MethodVariable _ _ _ => ret py_MethodType
  | k => match var_value k with
         | Some value => ret (py_type value)
         | None => raise (NotImplementedError "get_py_type")
         end
  end.

(** Modelled from the spec: [ConstantVariable.wrap_literal] of [.basic], a
    freshly synthesized constant. *)
Definition wrap_literal (value : PyObj) : M VarId :=
  alloc (mkVar (ConstTracker value) (ConstantVariable value)).

(** [PaddleLayerVariable.layer_name_generator.next()]: the generator hands
    out its next name, and the state records that one more was taken. *)
Definition next_layer_name : M string :=
  λ st, (Return (layer_names (layer_name_generator st)),
         mkState (graph st) (heap st) (S (layer_name_generator st))).

(** *** from_value of each class

    A variable is put on the heap as its [__init__] leaves it.  The proxy
    that [LayerVariable.__init__] obtains for a layer is kept with the
    variable and holds no attribute yet; [PaddleLayerVariable.__init__]
    then takes the layer's name from the name generator. *)

Definition UserDefinedFunctionVariable_from_value
    (value : PyObj) (tracker : Tracker) : M (option VarId) :=
  if isinstance_FunctionType value then
    let* v := alloc (mkVar tracker (UserDefinedFunctionVariable value)) in
    ret (Some v)
  else ret None.

Definition PaddleApiVariable_from_value
    (value : PyObj) (tracker : Tracker) : M (option VarId) :=
  if callable value && is_paddle_api value then
    let* v := alloc (mkVar tracker (PaddleApiVariable value)) in
    ret (Some v)
  else ret None.

(** [TensorFunctionVariable.__init__] looks the method up on
    [paddle.static.Variable]. *)
Definition TensorFunctionVariable_init
    (method_name : string) (tracker : Tracker) : M VarId :=
  match py_getattr paddle_static_Variable method_name with
  | Some fn => alloc (mkVar tracker (TensorFunctionVariable fn method_name))
  | None => raise AttributeError
  end.

Definition UserDefinedLayerVariable_from_value
    (value : PyObj) (tracker : Tracker) : M (option VarId) :=
  if isinstance_Layer value then
    let* v := alloc (mkVar tracker (UserDefinedLayerVariable value ∅)) in
    ret (Some v)
  else ret None.

Definition BuiltinVariable_from_value
    (value : PyObj) (tracker : Tracker) : M (option VarId) :=
  if is_builtin_fn value then
    let* v := alloc (mkVar tracker (BuiltinVariable value)) in
    ret (Some v)
  else ret None.

Definition UserDefinedGeneratorVariable_from_value
    (value : PyObj) (tracker : Tracker) : M (option VarId) :=
  if isgeneratorfunction value then
    let* v := alloc (mkVar tracker (UserDefinedGeneratorVariable value)) in
    ret (Some v)
  else ret None.

Definition PaddleLayerVariable_from_value
    (value : PyObj) (tracker : Tracker) : M (option VarId) :=
  if isinstance_Layer value then
    if isinstance_Sequential value
       || has_forward_pre_hooks value
       || has_forward_post_hooks value
    then ret None
    else if module_in_paddle_nn value then
      let* name := next_layer_name in
      let* v := alloc (mkVar tracker (PaddleLayerVariable value ∅ name)) in
      ret (Some v)
    else ret None
  else ret None.

(** *** MethodVariable.wrap_method

    [from_value] is the factory, which the definition of the factory below
    passes in. *)
Definition wrap_method (from_value : PyObj → Tracker → M VarId)
    (value : PyObj) (tracker : Tracker)
    (instance fn : option VarId) (method_name : option string) : M VarId :=
  let* instance_var :=
    match instance with
    | None =>
        match py_getattr value "__self__" with
        | Some s => from_value s DanglingTracker
        | None => raise AttributeError
        end
    | Some i => ret i
    end in
  let* fn_var :=
    match fn with
    | None =>
        match py_getattr value "__func__" with
        | Some f => from_value f DanglingTracker
        | None => raise AttributeError
        end
    | Some f => ret f
    end in
  let* method_var :=
    alloc (mkVar tracker (MethodVariable instance_var fn_var method_name)) in
  let* _ :=
    match instance with
    | None => set_tracker instance_var (GetAttrTracker method_var "__self__")
    | Some _ => ret ()
    end in
  let* _ :=
    match fn with
    | None => set_tracker fn_var (GetAttrTracker method_var "__func__")
    | Some _ => ret ()
    end in
  ret method_var.

Definition MethodVariable_from_value (from_value : PyObj → Tracker → M VarId)
    (value : PyObj) (tracker : Tracker) : M (option VarId) :=
  if ismethod value then
    let* v := wrap_method from_value value tracker None None None in
    ret (Some v)
  else ret None.

(** *** The factory *)

Definition class_from_value (from_value : PyObj → Tracker → M VarId)
    (c : VarClass) (value : PyObj) (tracker : Tracker) : M (option VarId) :=
  match c with
  | CUserDefinedFunctionVariable =>
      UserDefinedFunctionVariable_from_value value tracker
  | CPaddleApiVariable => PaddleApiVariable_from_value value tracker
  | CMethodVariable => MethodVariable_from_value from_value value tracker
  | CUserDefinedLayerVariable =>
      UserDefinedLayerVariable_from_value value tracker
  | CBuiltinVariable => BuiltinVariable_from_value value tracker
  | CUserDefinedGeneratorVariable =>
      UserDefinedGeneratorVariable_from_value value tracker
  | CPaddleLayerVariable => PaddleLayerVariable_from_value value tracker
  | COtherVariables =>
      match other_from_value value with
      | Some k => let* v := alloc (mkVar tracker k) in ret (Some v)
      | None => ret None
      end
  end.

(** The first constructor, in the registry's order, that claims the value. *)
Fixpoint find_var (from_value : PyObj → Tracker → M VarId)
    (cs : list VarClass) (value : PyObj) (tracker : Tracker)
    : M (option VarId) :=
  match cs with
  | [] => ret None
  | c :: cs' =>
      let* var := class_from_value from_value c value tracker in
      match var with
      | Some v => ret (Some v)
      | None => find_var from_value cs' value tracker
      end
  end.

(** Modelled from the spec: [VariableFactory.from_value] of [.base].  The
    registered constructors are tried in order and the first that claims the
    host value builds the Variable; when none does, resolution fails with an
    internal-consistency error.  The fuel bounds the nesting of bound
    methods inside bound methods. *)
Fixpoint from_value (fuel : nat) (value : PyObj) (tracker : Tracker)
    : M VarId :=
  match fuel with
  | 0 => out_of_fuel
  | S n =>
      let* var := find_var (from_value n) registered_funcs value tracker in
      match var with
      | Some v => ret v
      | None => raise (InnerError "no constructor claims the value")
      end
  end.

(** *** FunctionVariable.bind *)

Definition FunctionVariable_bind (from_value : PyObj → Tracker → M VarId)
    (self : VarId) (instance : VarId) (name : string) : M VarId :=
  let* method_var :=
    alloc (mkVar (GetAttrTracker instance name)
                 (MethodVariable instance self None)) in
  let* instance_type := get_py_type instance in
  let* class_var :=
    from_value instance_type (GetAttrTracker instance "__class__") in
  let* _ := set_tracker self (GetAttrTracker class_var name) in
  ret method_var.

(** *** UserDefinedFunctionVariable *)

(** The result of calling an object of the traced program, in the monad. *)
Definition host_call (f : PyObj) (xs : list PyObj) : M PyObj :=
  match py_call f xs with
  | inr r => ret r
  | inl e => raise e
  end.

Definition handle_psdb_function (value : PyObj)
    (args : list VarId) (kwargs : Kwargs) : M (option VarId) :=
  if decide (value = ASSERT) then
    match args with
    | [] => raise IndexError
    | a0 :: _ =>
        let* v := load a0 in
        match var_value (kind v) with
        | None => raise AttributeError
        | Some x =>
            let* r := host_call value [x] in
            let* c := wrap_literal r in
            ret (Some c)
        end
    end
  else if decide (value = psdb_print) then
    let* sot_prefix := wrap_literal (py_of_string "[SOT]") in
    let* stmt :=
      alloc (mkVar DanglingTracker
                   (PrintStmtVariable (sot_prefix :: args) kwargs)) in
    let* _ := modify_graph (add_print_variables stmt) in
    let* c := wrap_literal py_None in
    ret (Some c)
  else if decide (value = psdb_breakpoint) then
    let* c := wrap_literal py_None in
    ret (Some c)
  else ret None.

Definition UserDefinedFunctionVariable_call_function
    (self : VarId) (value : PyObj) (args : list VarId) (kwargs : Kwargs)
    : M VarId :=
  let* result := handle_psdb_function value args kwargs in
  match result with
  | Some r => ret r
  | None =>
      let* g := get_graph in
      let checkpoint := save_memo g in
      try_except (inline_call self args kwargs) is_FallbackErrorBase
        (λ e,
          let* _ := modify_graph (restore_memo checkpoint) in
          raise (BreakGraphError
                   (Some (py_str value +:+ " is raise a inline call error. "
                          +:+ exn_str e))))
  end.

(** *** PaddleApiVariable and TensorFunctionVariable *)

Definition PaddleApiVariable_call_function
    (value : PyObj) (args : list VarId) (kwargs : Kwargs) : M VarId :=
  if is_break_graph_api value then
    match py_name value with
    | Some n =>
        raise (BreakGraphError
                 (Some ("breakgraph by unsupport function: " +:+ n)))
    | None => raise AttributeError
    end
  else call_paddle_api value args kwargs.

Definition TensorFunctionVariable_call_function
    (method_name : string) (args : list VarId) (kwargs : Kwargs) : M VarId :=
  if is_break_graph_tensor_methods method_name then
    raise (BreakGraphError None)
  else call_tensor_method method_name args kwargs.

(** *** MethodVariable and the layers

    [call] is [CallableVariable.__call__], defined below. *)
Definition MethodVariable_call_function
    (call : VarId → list VarId → Kwargs → M VarId)
    (bound_instance fn : VarId) (args : list VarId) (kwargs : Kwargs)
    : M VarId :=
  call fn (bound_instance :: args) kwargs.

Definition UserDefinedLayerVariable_call_function
    (call : VarId → list VarId → Kwargs → M VarId)
    (self : VarId) (value : PyObj) (args : list VarId) (kwargs : Kwargs)
    : M VarId :=
  match py_getattr (py_type value) "__call__" with
  | None => raise AttributeError
  | Some class_call =>
      let* fn_var :=
        alloc (mkVar (GetAttrTracker self "__call__")
                     (UserDefinedFunctionVariable class_call)) in
      call fn_var (self :: args) kwargs
  end.

Definition PaddleLayerVariable_call_function
    (self : VarId) (args : list VarId) (kwargs : Kwargs) : M VarId :=
  call_layer self args kwargs.

(** *** LayerVariable.proxy_getter *)

(** [inspect.ismethoddescriptor(getattr(s.__class__, name, None))] *)
Definition class_attr_is_methoddescriptor (s : PyObj) (name : string)
    : bool :=
  match py_getattr (py_type s) name with
  | Some d => ismethoddescriptor d
  | None => false
  end.

(** The attribute [name] of the layer as a variable; [None] stands for
    [MutableDictLikeData.Empty()]. *)
Definition proxy_getter (from_value : PyObj → Tracker → M VarId)
    (self : VarId) (value : PyObj) (name : string) : M (option VarId) :=
  match py_getattr value name with
  | None => ret None
  | Some attr =>
      if ismethod attr
         || match py_getattr attr "__self__" with
            | Some s => class_attr_is_methoddescriptor s name
            | None => false
            end
      then
        match py_getattr attr "__self__" with
        | None => raise AttributeError
        | Some s =>
            let* fn :=
              if class_attr_is_methoddescriptor s name then
                let* self_type := get_py_type self in
                let* class_var :=
                  from_value self_type (GetAttrTracker self "__class__") in
                match py_getattr (py_type s) name with
                | None => raise AttributeError
                | Some d =>
                    let* f := from_value d (GetAttrTracker class_var name) in
                    ret (Some f)
                end
              else ret None in
            let* method_var :=
              wrap_method from_value attr (GetAttrTracker self name)
                (Some self) fn (Some name) in
            ret (Some method_var)
        end
      else
        let* v := from_value attr (GetAttrTracker self name) in
        ret (Some v)
  end.

(** *** BuiltinVariable *)

(** [sorted_args[0]] *)
Definition first_of (sorted_args : list VarId) : M VarId :=
  match sorted_args with
  | [] => raise IndexError
  | a :: _ => ret a
  end.

(** The loop over the magic methods; falling out of it returns [None]. *)
Fixpoint magic_method_scan
    (from_value : PyObj → Tracker → M VarId)
    (call : VarId → list VarId → Kwargs → M VarId)
    (magic_methods : list MagicMethod) (args : list VarId)
    : M (option VarId) :=
  match magic_methods with
  | [] => ret None
  | magic_method :: rest =>
      let sorted_args := if is_reverse magic_method then reverse args else args in
      let* operand := first_of sorted_args in
      let* arg_type := get_py_type operand in
      match py_getattr arg_type (mm_name magic_method) with
      | Some class_fn =>
          let* args0 := first_of args in
          let* class_var :=
            from_value arg_type (GetAttrTracker args0 "__class__") in
          match py_name class_fn with
          | None => raise AttributeError
          | Some class_fn_name =>
              let* fn_var :=
                from_value class_fn (GetAttrTracker class_var class_fn_name) in
              let* r := call fn_var args ∅ in
              ret (Some r)
          end
      | None => magic_method_scan from_value call rest args
      end
  end.

Definition BuiltinVariable_call_function
    (from_value : PyObj → Tracker → M VarId)
    (call : VarId → list VarId → Kwargs → M VarId)
    (value : PyObj) (args : list VarId) (kwargs : Kwargs) : M VarId :=
  let* h := get_heap in
  match Dispatcher_dispatch value args kwargs h with
  | Some handler => handler args kwargs
  | None =>
      let magic_methods := magic_method_builtin_dispatch value in
      let* found := magic_method_scan from_value call magic_methods args in
      match found with
      | Some r => ret r
      | None =>
          raise (BreakGraphError
                   (Some ("Not support builtin function: "
                          +:+ match py_name value with
                              | Some n => n
                              | None => py_str value
                              end)))
      end
  end.

(** *** UserDefinedGeneratorVariable *)

Definition UserDefinedGeneratorVariable_call_function
    (from_value : PyObj → Tracker → M VarId)
    (self : VarId) (value : PyObj) (args : list VarId) (kwargs : Kwargs)
    : M VarId :=
  let* iter_ := host_call value [] in
  from_value iter_ (DummyTracker [self]).

(** *** CallableVariable.__call__

    the [call_function] of the class of [self] on the same arguments; a
    variable of another module answers through [call_other].  The fuel
    bounds the calls that go from one variable to the next. *)
Fixpoint call (fuel : nat) (self : VarId) (args : list VarId)
    (kwargs : Kwargs) : M VarId :=
  match fuel with
  | 0 => out_of_fuel
  | S n =>
      let* v := load self in
      match kind v with
      | UserDefinedFunctionVariable value =>
          UserDefinedFunctionVariable_call_function self value args kwargs
      | PaddleApiVariable value =>
          PaddleApiVariable_call_function value args kwargs
      | TensorFunctionVariable _ method_name =>
          TensorFunctionVariable_call_function method_name args kwargs
      | MethodVariable bound_instance fn _ =>
          MethodVariable_call_function (call n) bound_instance fn args kwargs
      | UserDefinedLayerVariable value _ =>
          UserDefinedLayerVariable_call_function (call n) self value args kwargs
      | PaddleLayerVariable _ _ _ =>
          PaddleLayerVariable_call_function self args kwargs
      | BuiltinVariable value =>
          BuiltinVariable_call_function (from_value n) (call n)
            value args kwargs
      | UserDefinedGeneratorVariable value =>
          UserDefinedGeneratorVariable_call_function (from_value n)
            self value args kwargs
      | ConstantVariable _ | PrintStmtVariable _ _ | ObjectVariable _ =>
          call_other self args kwargs
      end
  end.

(** *** LayerVariable.make_stringify_guard *)

(** [union_free_vars] of [..guard]: one dictionary out of several, a later
    one overriding an earlier one. *)
Definition union_free_vars (ds : list (gmap string PyObj))
    : gmap string PyObj :=
  foldl (λ acc d, d ∪ acc) ∅ ds.

(** Modelled from the spec: the decorator [check_guard] of [..guard].  A
    tracker without an origin on the frame must not appear in a guard: the
    decorator asserts that the variable's tracker is traceable and then runs
    the method it wraps. *)
Definition check_guard {A} (fn : VarId → M A) (self : VarId) : M A :=
  let* v := load self in
  let* h := get_heap in
  if is_traceable (tracker <$> h) (tracker v) then fn self
  else raise AssertionError.

(** The method as written, before the decorator is applied. *)
Definition LayerVariable_make_stringify_guard_body (self : VarId)
    : M (list StringifyExpression) :=
  let* v := load self in
  let* h := get_heap in
  match kind v with
  | UserDefinedLayerVariable value _ | PaddleLayerVariable value _ _ =>
      let frame_value_tracer :=
        trace_value_from_frame (tracker <$> h) (tracker v) in
      ret [ mkStringifyExpression _
              ("id(" +:+ expr frame_value_tracer +:+ ") == "
               +:+ pretty (py_id value))
              (union_free_vars [free_vars frame_value_tracer]);
            mkStringifyExpression _
              (expr frame_value_tracer +:+ ".training == "
               +:+ py_str (layer_training value))
              (union_free_vars [free_vars frame_value_tracer]) ]
  | _ => raise AttributeError
  end.

Definition LayerVariable_make_stringify_guard
    : VarId → M (list StringifyExpression) :=
  check_guard LayerVariable_make_stringify_guard_body.

End Callable.

(** * The vocabulary of the properties *)

Section Relations.
Context `{HostI : Host} {G : Type}.

(** A computation whose every run, whatever its outcome, relates the state
    it starts in to the state it ends in. *)
Definition sat {A} (R : State G → State G → Prop) (c : M G A) : Prop :=
  ∀ st o st', c st = (o, st') → R st st'.

(** [keeps n]: the graph and the first [n] variables are as they were, and
    no variable disappeared; it speaks of runs that start with at least [n]
    variables. *)
Definition keeps (n : nat) (st st' : State G) : Prop :=
  n ≤ length (heap st) →
  graph st' = graph st
  ∧ length (heap st) ≤ length (heap st')
  ∧ ∀ i, i < n → heap st' !! i = heap st !! i.

(** [trackers_kept]: every variable there was still has the tracker it
    had. *)
Definition trackers_kept (st st' : State G) : Prop :=
  ∀ i t, tracker_of (heap st) i = Some t → tracker_of (heap st') i = Some t.

(** [same_graph]: the graph is as it was. *)
Definition same_graph (st st' : State G) : Prop := graph st' = graph st.

(** [kinds_kept]: every variable there was is still there, of the class and
    with the fields it had. *)
Definition kinds_kept (st st' : State G) : Prop :=
  ∀ i v, heap st !! i = Some v →
    ∃ v', heap st' !! i = Some v' ∧ kind v' = kind v.

(** A computation that, whenever it raises a [FallbackErrorBase], leaves the
    graph as it found it. *)
Definition fails_clean {A} (c : M G A) : Prop :=
  ∀ st e st', c st = (Raise e, st') →
    is_FallbackErrorBase e = true → graph st' = graph st.

End Relations.

Section Vocabulary.
Context `{HostI : Host} `{EnvI : !Env}.

Local Abbreviation M := (M Graph).

(** What the proofs need of a factory: it keeps what there was, and the
    variable it returns is new and carries the tracker it was given. *)
Definition factory_ok (fv : PyObj → Tracker → M VarId) : Prop :=
  (∀ n value t, sat (keeps n) (fv value t))
  ∧ (∀ value t st i st', fv value t st = (Return i, st') →
       length (heap st) ≤ i ∧ tracker_of (heap st') i = Some t).

(** The instance or function variable of [wrap_method]: the caller's, or a
    new one with a dangling tracker. *)
Definition owned_part (fv : PyObj → Tracker → M VarId) (value : PyObj)
    (attr : string) (supplied : option VarId) : M VarId :=
  match supplied with
  | None =>
      match py_getattr value attr with
      | Some s => fv s DanglingTracker
      | None => raise AttributeError
      end
  | Some i => ret i
  end.

(** The conditional re-rooting at the end of [wrap_method]. *)
Definition reroot (supplied : option VarId) (i : VarId) (t : Tracker)
    : M () :=
  match supplied with
  | None => set_tracker i t
  | Some _ => ret ()
  end.

(** The operand whose type a candidate is looked up on, as the claims word
    it: the first positional argument, and the last one for a reflected
    name. *)
Definition checked_operand (m : MagicMethod) (args : list VarId)
    : option VarId :=
  if is_reverse m then last args else head args.

(** The candidate's operand is there and its type does not define the
    method. *)
Definition not_defined_on_operand (st : State Graph) (args : list VarId)
    (m : MagicMethod) : Prop :=
  ∃ operand arg_type,
    checked_operand m args = Some operand
    ∧ get_py_type operand st = (Return arg_type, st)
    ∧ py_getattr arg_type (mm_name m) = None.

(** The collaborators leave the trackers of the variables there are alone. *)
Definition collaborators_keep_trackers : Prop :=
  (∀ s a k, sat trackers_kept (inline_call s a k))
  ∧ (∀ f a k, sat trackers_kept (call_paddle_api f a k))
  ∧ (∀ n a k, sat trackers_kept (call_tensor_method n a k))
  ∧ (∀ s a k, sat trackers_kept (call_layer s a k))
  ∧ (∀ s a k, sat trackers_kept (call_other s a k))
  ∧ (∀ f a k h handler, Dispatcher_dispatch f a k h = Some handler →
       ∀ a' k', sat trackers_kept (handler a' k')).

(** The claim C5 as it is worded, for one run of a computation: a variable
    whose tracker was not dangling has the same tracker afterwards. *)
Definition tracker_fixed_unless_dangling {A} (c : M A) (st : State Graph)
    : Prop :=
  ∀ o st' i t, c st = (o, st') →
    tracker_of (heap st) i = Some t → t ≠ DanglingTracker →
    tracker_of (heap st') i = Some t.

(** The graph builder, the handlers of the dispatcher and the variables of
    the other modules undo what they did to the graph before they raise a
    [FallbackErrorBase]. *)
Definition collaborators_atomic : Prop :=
  (∀ f a k, fails_clean (call_paddle_api f a k))
  ∧ (∀ n a k, fails_clean (call_tensor_method n a k))
  ∧ (∀ s a k, fails_clean (call_layer s a k))
  ∧ (∀ s a k, fails_clean (call_other s a k))
  ∧ (∀ f a k h handler, Dispatcher_dispatch f a k h = Some handler →
       ∀ a' k', fails_clean (handler a' k')).

End Vocabulary.

(** * A small traced program

    Objects are named by strings.  The graph is the list of the statements
    emitted so far and a checkpoint is a copy of it.  The inline executor
    emits a statement and then fails on a call without arguments; [add] has
    the magic methods [__add__] and [__radd__], and only the class [Rhs]
    defines one of them, the reflected one. *)

Definition demo_getattr (o : string) (name : string) : option string :=
  if decide (o = "Rhs" ∧ name = "__radd__") then Some "Rhs.__radd__"
  else if decide (o = "obj.m" ∧ name = "__self__") then Some "obj"
  else if decide (o = "obj.m" ∧ name = "__func__") then Some "C.m"
  else if decide (o = "Net" ∧ name = "__call__") then Some "Net.__call__"
  else None.

Definition demo_type (o : string) : string :=
  if decide (o = "lhs") then "Lhs"
  else if decide (o = "rhs") then "Rhs"
  else if decide (o = "net") then "Net"
  else "object".

#[export] Instance demo_host : Host := {|
  PyObj := string;
  py_name := λ o, if decide (o = "partial") then None else Some o;
  py_str := λ o,
    if bool_decide (o ∈ ["True"; "False"; "None"]) then o
    else "<" +:+ o +:+ ">";
  py_type := demo_type;
  py_getattr := demo_getattr;
  py_id := λ o, Z.of_nat (String.length o);
  py_None := "None";
  py_of_string := λ s, s;
  py_MethodType := "method";
  paddle_static_Variable := "paddle.static.Variable";
  ASSERT := "ASSERT";
  psdb_print := "psdb_print";
  psdb_breakpoint := "psdb_breakpoint";
  layer_training := λ _, "True";
  isinstance_FunctionType :=
    λ o, bool_decide (o ∈ ["f"; "C.m"; "Rhs.__radd__"; "Net.__call__"]);
  callable := λ o, bool_decide (o ∉ ["obj"; "lhs"; "rhs"; "Lhs"; "Rhs"]);
  ismethod := λ o, bool_decide (o = "obj.m");
  ismethoddescriptor := λ _, false;
  isgeneratorfunction := λ o, bool_decide (o = "gen");
  isinstance_Layer := λ o, bool_decide (o = "net");
  isinstance_Sequential := λ _, false;
  has_forward_pre_hooks := λ _, false;
  has_forward_post_hooks := λ _, false;
  module_in_paddle_nn := λ _, false;
|}.

Definition demo_emit (stmt : string) (res : VariableBase)
    : M (list string) VarId :=
  let* _ := modify_graph (λ g, g ++ [stmt]) in
  alloc res.

#[export] Instance demo_env : Env := {|
  Graph := list string;
  Memo := list string;
  save_memo := λ g, g;
  restore_memo := λ memo _, memo;
  add_print_variables := λ _ g, g ++ ["print"];
  call_paddle_api := λ f args _,
    demo_emit ("api " +:+ f) (mkVar (DummyTracker args) (ObjectVariable "out"));
  call_tensor_method := λ n args _,
    demo_emit ("method " +:+ n)
              (mkVar (DummyTracker args) (ObjectVariable "out"));
  call_layer := λ self args _,
    demo_emit "layer" (mkVar (DummyTracker (self :: args))
                             (ObjectVariable "out"));
  inline_call := λ self args _,
    let* _ := modify_graph (λ g, g ++ ["inline"]) in
    match args with
    | [] => raise (FallbackError (Some "unsupported opcode"))
    | a :: _ => ret a
    end;
  Dispatcher_dispatch := λ f args _ _,
    if decide (f = "len") then
      Some (λ args _, demo_emit "len"
                        (mkVar (DummyTracker args) (ObjectVariable "out")))
    else None;
  magic_method_builtin_dispatch := λ f,
    if decide (f = "add") then
      [mkMagicMethod "__add__" false; mkMagicMethod "__radd__" true]
    else [];
  is_break_graph_api := λ f, bool_decide (f = "paddle.unsupported");
  is_break_graph_tensor_methods := λ n, bool_decide (n = "numpy");
  is_paddle_api := λ f, bool_decide (f ∈ ["paddle.unsupported"; "paddle.abs"]);
  is_builtin_fn := λ f, bool_decide (f ∈ ["len"; "add"]);
  py_call := λ f xs,
    if decide (f = "gen") then
      match xs with [] => inr "generator" | _ => inl TypeError end
    else if decide (f = "ASSERT") then inr "None"
    else inl TypeError;
  call_other := λ _ _ _, raise TypeError;
  layer_names := λ n, "layer_" +:+ pretty n;
  registered_funcs :=
    [CPaddleLayerVariable; CUserDefinedLayerVariable; CPaddleApiVariable;
     CUserDefinedGeneratorVariable; CUserDefinedFunctionVariable;
     CMethodVariable; CBuiltinVariable; COtherVariables];
  other_from_value := λ o, Some (ObjectVariable o);
  is_traceable := λ _ t,
    match t with FrameTracker _ | ConstTracker _ => true | _ => false end;
  trace_value_from_frame := λ _ t,
    match t with
    | FrameTracker e => mkStringifyExpression _ e {["frame" := "frame"]}
    | _ => mkStringifyExpression _ "" ∅
    end;
|}.

(** A state with the given variables and an empty graph. *)
Definition demo_state (h : list VariableBase) : State (list string) :=
  mkState [] h 0.

(** A function [f], two objects of the classes [Lhs] and [Rhs], and the
    builtin [add]. *)
Definition demo_heap : list VariableBase :=
  [ mkVar (FrameTracker "f") (UserDefinedFunctionVariable "f");
    mkVar (FrameTracker "x") (ObjectVariable "lhs");
    mkVar (FrameTracker "y") (ObjectVariable "rhs");
    mkVar (FrameTracker "add") (BuiltinVariable "add") ].

(** The state in which [Rhs.__radd__] is called: the class variable and the
    function variable follow the variables there were. *)
Definition demo_heap_radd : list VariableBase :=
  demo_heap
  ++ [ mkVar (GetAttrTracker 1 "__class__") (ObjectVariable "Rhs");
       mkVar (GetAttrTracker 4 "Rhs.__radd__")
             (UserDefinedFunctionVariable "Rhs.__radd__") ].

(** A second program, with a layer [net] that has a bound method
    [forward], a method [slot] of a method descriptor and a sub-layer [fc],
    which is the paddle layer [linear]; a callable [partial] without a name
    that is an unsupported API, a tensor method [abs], and an [ASSERT] that
    fails on [False]. *)
Definition demo_getattr2 (o : string) (name : string) : option string :=
  if decide (o = "net" ∧ name = "forward") then Some "net.forward"
  else if decide (o = "net.forward" ∧ name = "__self__") then Some "net"
  else if decide (o = "net.forward" ∧ name = "__func__")
  then Some "Net.forward"
  else if decide (o = "net" ∧ name = "training") then Some "True"
  else if decide (o = "net" ∧ name = "fc") then Some "linear"
  else if decide (o = "net" ∧ name = "slot") then Some "net.slot"
  else if decide (o = "net.slot" ∧ name = "__self__") then Some "net"
  else if decide (o = "Net" ∧ name = "slot") then Some "Net.slot"
  else if decide (o = "paddle.static.Variable" ∧ name = "abs")
  then Some "Variable.abs"
  else None.

Definition demo_host2 : Host := {|
  PyObj := string;
  py_name := λ o, if decide (o = "partial") then None else Some o;
  py_str := λ o, o;
  py_type := λ o, if decide (o = "net") then "Net" else "object";
  py_getattr := demo_getattr2;
  py_id := λ o, Z.of_nat (String.length o);
  py_None := "None";
  py_of_string := λ s, s;
  py_MethodType := "method";
  paddle_static_Variable := "paddle.static.Variable";
  ASSERT := "ASSERT";
  psdb_print := "psdb_print";
  psdb_breakpoint := "psdb_breakpoint";
  layer_training := λ _, "True";
  isinstance_FunctionType := λ o, bool_decide (o = "Net.forward");
  callable := λ _, true;
  ismethod := λ o, bool_decide (o = "net.forward");
  ismethoddescriptor := λ o, bool_decide (o = "Net.slot");
  isgeneratorfunction := λ _, false;
  isinstance_Layer := λ o, bool_decide (o ∈ ["net"; "linear"]);
  isinstance_Sequential := λ _, false;
  has_forward_pre_hooks := λ _, false;
  has_forward_post_hooks := λ _, false;
  module_in_paddle_nn := λ o, bool_decide (o = "linear");
|}.

Section SecondProgram.
#[local] Existing Instance demo_host2.

Definition demo_emit2 (stmt : string) (res : VariableBase)
    : M (list string) VarId :=
  let* _ := modify_graph (λ g, g ++ [stmt]) in
  alloc res.

Definition demo_env2 : Env := {|
  Graph := list string;
  Memo := list string;
  save_memo := λ g, g;
  restore_memo := λ memo _, memo;
  add_print_variables := λ _ g, g ++ ["print"];
  call_paddle_api := λ f args _,
    demo_emit2 ("api " +:+ f)
      (mkVar (DummyTracker args) (ObjectVariable "out"));
  call_tensor_method := λ n args _,
    demo_emit2 ("method " +:+ n)
      (mkVar (DummyTracker args) (ObjectVariable "out"));
  call_layer := λ self args _,
    demo_emit2 "layer"
      (mkVar (DummyTracker (self :: args)) (ObjectVariable "out"));
  inline_call := λ self args _,
    let* _ := modify_graph (λ g, g ++ ["inline"]) in
    match args with
    | [] => raise (FallbackError (Some "unsupported opcode"))
    | a :: _ => ret a
    end;
  Dispatcher_dispatch := λ _ _ _ _, None;
  magic_method_builtin_dispatch := λ _, [];
  is_break_graph_api :=
    λ f, bool_decide (f ∈ ["partial"; "paddle.unsupported"]);
  is_break_graph_tensor_methods := λ n, bool_decide (n = "numpy");
  is_paddle_api :=
    λ f, bool_decide (f ∈ ["partial"; "paddle.unsupported"; "paddle.abs"]);
  is_builtin_fn := λ _, false;
  py_call := λ f xs,
    if decide (f = "ASSERT") then
      if decide (xs = ["False"]) then inl AssertionError else inr "None"
    else inl TypeError;
  call_other := λ _ _ _, raise TypeError;
  layer_names := λ n, "layer_" +:+ pretty n;
  registered_funcs :=
    [CPaddleLayerVariable; CUserDefinedLayerVariable; CPaddleApiVariable;
     CUserDefinedGeneratorVariable; CUserDefinedFunctionVariable;
     CMethodVariable; CBuiltinVariable; COtherVariables];
  other_from_value := λ o, Some (ObjectVariable o);
  is_traceable := λ _ t,
    match t with FrameTracker _ | ConstTracker _ => true | _ => false end;
  trace_value_from_frame := λ _ t,
    match t with
    | FrameTracker e => mkStringifyExpression _ e {["frame" := "frame"]}
    | _ => mkStringifyExpression _ "" ∅
    end;
|}.

(** Its states, with an empty graph. *)
Definition demo_state2 (h : list VariableBase) : State (list string) :=
  mkState [] h 0.

End SecondProgram.

(** * Properties *)

Section MonadLemmas.
Context `{HostI : Host} {G : Type}.

Local Abbreviation sat := (sat (G := G)).
Local Abbreviation keeps := (keeps (G := G)).
Local Abbreviation trackers_kept := (trackers_kept (G := G)).

Lemma bind_inv {A B} (c : M G A) (k : A → M G B) st o st' :
  bind c k st = (o, st') →
  (∃ a st1, c st = (Return a, st1) ∧ k a st1 = (o, st'))
  ∨ (∃ e, c st = (Raise e, st') ∧ o = Raise e)
  ∨ (c st = (OutOfFuel, st') ∧ o = OutOfFuel).
Proof.
  unfold bind. destruct (c st) as [[a|e|] st1]; intros Hk.
  - left. eauto.
  - right. left. inversion Hk; subst. eauto.
  - right. right. inversion Hk; subst. eauto.
Qed.

Lemma bind_Return {A B} (c : M G A) (k : A → M G B) st a st1 :
  c st = (Return a, st1) → bind c k st = k a st1.
Proof. unfold bind. intros ->. reflexivity. Qed.

Lemma sat_bind {A B} R (c : M G A) (k : A → M G B) :
  Transitive R → sat R c → (∀ a, sat R (k a)) → sat R (bind c k).
Proof.
  intros HT Hc Hk st o st' Hrun.
  apply bind_inv in Hrun as [(a & st1 & H1 & H2)|[(e & H1 & _)|[H1 _]]].
  - etrans; [eapply Hc|eapply Hk]; eauto.
  - eapply Hc; eauto.
  - eapply Hc; eauto.
Qed.

Lemma sat_ret {A} R (a : A) : Reflexive R → sat R (ret a).
Proof. intros HR st o st' H. inversion H; subst. apply HR. Qed.

Lemma sat_raise {A} R e : Reflexive R → sat R (raise (A := A) e).
Proof. intros HR st o st' H. inversion H; subst. apply HR. Qed.

Lemma sat_out_of_fuel {A} R : Reflexive R → sat R (out_of_fuel (A := A)).
Proof. intros HR st o st' H. inversion H; subst. apply HR. Qed.

Lemma sat_load R i : Reflexive R → sat R (load i).
Proof.
  intros HR st o st' H. unfold load in H.
  destruct (heap st !! i) in H; inversion H; subst; apply HR.
Qed.

Lemma sat_get_heap R : Reflexive R → sat R get_heap.
Proof. intros HR st o st' H. inversion H; subst. apply HR. Qed.

Lemma sat_get_graph R : Reflexive R → sat R get_graph.
Proof. intros HR st o st' H. inversion H; subst. apply HR. Qed.

Lemma sat_try_except {A} R (c : M G A) caught handler :
  Transitive R → sat R c → (∀ e, sat R (handler e)) →
  sat R (try_except c caught handler).
Proof.
  intros HT Hc Hh st o st' Hrun. unfold try_except in Hrun.
  destruct (c st) as [[a|e|] st1] eqn:E.
  - inversion Hrun; subst. eapply Hc; eauto.
  - destruct (caught e).
    + etrans; [eapply Hc|eapply Hh]; eauto.
    + inversion Hrun; subst. eapply Hc; eauto.
  - inversion Hrun; subst. eapply Hc; eauto.
Qed.

Global Instance keeps_refl n : Reflexive (keeps n).
Proof. intros st _. auto. Qed.

Global Instance keeps_trans n : Transitive (keeps n).
Proof.
  intros s1 s2 s3 H12 H23 Hn.
  destruct (H12 Hn) as (Hg & Hl & Hi).
  destruct H23 as (Hg' & Hl' & Hi'); [lia|].
  split; [congruence|]. split; [lia|].
  intros i Hlt. rewrite Hi', Hi; auto.
Qed.

Global Instance trackers_kept_refl : Reflexive trackers_kept.
Proof. intros st i t H. exact H. Qed.

Global Instance trackers_kept_trans : Transitive trackers_kept.
Proof. intros s1 s2 s3 H12 H23 i t H. auto. Qed.

Lemma keeps_intro n st st' :
  (n ≤ length (heap st) → keeps n st st') → keeps n st st'.
Proof. intros H Hn. exact (H Hn Hn). Qed.

Lemma keeps_trackers_kept st st' :
  keeps (length (heap st)) st st' → trackers_kept st st'.
Proof.
  intros Hk i t Ht. destruct Hk as (_ & _ & Hi); [lia|].
  unfold tracker_of in *. rewrite Hi; [exact Ht|].
  destruct (heap st !! i) eqn:E; [|discriminate].
  eapply lookup_lt_Some; eauto.
Qed.

Lemma sat_keeps_trackers_kept {A} (c : M G A) :
  (∀ n, sat (keeps n) c) → sat trackers_kept c.
Proof. intros H st o st' Hrun. eapply keeps_trackers_kept, H; eauto. Qed.

Lemma keeps_graph n st st' :
  n ≤ length (heap st) → keeps n st st' → graph st' = graph st.
Proof. intros Hn Hk. apply Hk; auto. Qed.

Lemma sat_alloc n v : sat (keeps n) (alloc v).
Proof.
  intros st o st' H Hn. inversion H; subst; simpl.
  split; [done|]. split; [rewrite length_app; lia|].
  intros i Hi. apply lookup_app_l. lia.
Qed.

Lemma sat_set_tracker n i t : n ≤ i → sat (keeps n) (set_tracker i t).
Proof.
  intros Hle st o st' H Hn. unfold set_tracker in H.
  destruct (heap st !! i) eqn:E in H; inversion H; subst; simpl.
  - split; [reflexivity|]. split; [rewrite length_insert; lia|].
    intros j Hj. apply list_lookup_insert_ne. lia.
  - split; [reflexivity|]. split; [lia|]. reflexivity.
Qed.

Lemma alloc_run v (st : State G) :
  alloc v st
  = (Return (length (heap st)),
     mkState (graph st) (heap st ++ [v]) (layer_name_generator st)).
Proof. reflexivity. Qed.

Lemma load_run i v (st : State G) :
  heap st !! i = Some v → load i st = (Return v, st).
Proof. unfold load. intros ->. reflexivity. Qed.

End MonadLemmas.

(** ** The factory only adds variables *)

Section Factory.
Context `{HostI : Host} `{EnvI : !Env}.

Local Abbreviation M := (M Graph).

Lemma sat_next_layer_name n : sat (keeps n) next_layer_name.
Proof. intros st o st' H Hn. inversion H; subst; simpl. auto. Qed.

Lemma owned_part_keeps fv value attr supplied n :
  factory_ok fv → sat (keeps n) (owned_part fv value attr supplied).
Proof.
  intros [Hk _]. unfold owned_part. destruct supplied.
  - apply sat_ret, _.
  - destruct (py_getattr value attr); [apply Hk|apply sat_raise, _].
Qed.

Lemma owned_part_fresh fv value attr st i st' :
  factory_ok fv →
  owned_part fv value attr None st = (Return i, st') →
  length (heap st) ≤ i ∧ tracker_of (heap st') i = Some DanglingTracker.
Proof.
  intros [_ Hr]. unfold owned_part.
  destruct (py_getattr value attr); [apply Hr|discriminate].
Qed.

Lemma tracker_of_lt {h : list VariableBase} {i t} :
  tracker_of h i = Some t → i < length h.
Proof.
  unfold tracker_of. destruct (h !! i) eqn:E; [|discriminate].
  intros _. eapply lookup_lt_Some; eauto.
Qed.

Lemma tracker_of_app_r (h : list VariableBase) v :
  tracker_of (h ++ [v]) (length h) = Some (tracker v).
Proof.
  unfold tracker_of. rewrite lookup_app_r by lia.
  replace (length h - length h) with 0 by lia. reflexivity.
Qed.

Lemma tracker_of_insert_eq (h : list VariableBase) i t v :
  h !! i = Some v →
  tracker_of (<[i := with_tracker t v]> h) i = Some t.
Proof.
  intros E. unfold tracker_of.
  rewrite list_lookup_insert_eq by (eapply lookup_lt_Some; eauto).
  reflexivity.
Qed.

Lemma tracker_of_insert_ne (h : list VariableBase) i j v :
  i ≠ j → tracker_of (<[i := v]> h) j = tracker_of h j.
Proof. intros. unfold tracker_of. by rewrite list_lookup_insert_ne. Qed.

Lemma set_tracker_inv {G} i t (st : State G) o st' :
  set_tracker i t st = (o, st') →
  (∃ v, heap st !! i = Some v ∧ o = Return ()
        ∧ st' = mkState (graph st) (<[i := with_tracker t v]> (heap st))
                        (layer_name_generator st))
  ∨ (heap st !! i = None ∧ st' = st ∧ ∃ e, o = Raise e).
Proof.
  unfold set_tracker. destruct (heap st !! i) eqn:E; intros H;
    inversion H; subst; eauto 10.
Qed.

Lemma reroot_keeps supplied i t n :
  (supplied = None → n ≤ i) → sat (keeps n) (reroot supplied i t).
Proof.
  unfold reroot. destruct supplied; intros H.
  - apply sat_ret, _.
  - apply sat_set_tracker; auto.
Qed.

Lemma wrap_method_unfold fv value t instance fn mn :
  wrap_method fv value t instance fn mn
  = (let* instance_var := owned_part fv value "__self__" instance in
     let* fn_var := owned_part fv value "__func__" fn in
     let* method_var :=
       alloc (mkVar t (MethodVariable instance_var fn_var mn)) in
     let* _ := reroot instance instance_var
                      (GetAttrTracker method_var "__self__") in
     let* _ := reroot fn fn_var (GetAttrTracker method_var "__func__") in
     ret method_var).
Proof. reflexivity. Qed.

Lemma wrap_method_keeps fv value t instance fn mn n :
  factory_ok fv → sat (keeps n) (wrap_method fv value t instance fn mn).
Proof.
  intros Hf st o st' Hrun. apply keeps_intro. intros Hn.
  rewrite wrap_method_unfold in Hrun.
  apply bind_inv in Hrun as [(i & st1 & H1 & Hrun)|[(e & H1 & _)|[H1 _]]];
    [|eapply owned_part_keeps; eauto..].
  assert (K1 : keeps n st st1) by (eapply owned_part_keeps; eauto).
  assert (Hi : instance = None → n ≤ i).
  { intros ->. eapply owned_part_fresh in H1 as [? _]; [lia|done]. }
  destruct (K1 Hn) as (_ & Hl1 & _).
  apply bind_inv in Hrun as [(f & st2 & H2 & Hrun)|[(e & H2 & _)|[H2 _]]];
    [|etrans; [exact K1|eapply owned_part_keeps; eauto]..].
  assert (K2 : keeps n st1 st2) by (eapply owned_part_keeps; eauto).
  assert (Hf2 : fn = None → n ≤ f).
  { intros ->. eapply owned_part_fresh in H2 as [? _]; [lia|done]. }
  etrans; [exact K1|]. etrans; [exact K2|].
  revert Hrun. generalize st2 o st'.
  change (sat (keeps n)
    (let* method_var := alloc (mkVar t (MethodVariable i f mn)) in
     let* _ := reroot instance i (GetAttrTracker method_var "__self__") in
     let* _ := reroot fn f (GetAttrTracker method_var "__func__") in
     ret method_var)).
  apply sat_bind; [apply _|apply sat_alloc|]. intros m.
  apply sat_bind; [apply _|apply reroot_keeps, Hi|]. intros _.
  apply sat_bind; [apply _|apply reroot_keeps, Hf2|]. intros _.
  apply sat_ret, _.
Qed.

Lemma factory_keeps_lookup fv value t st o st' j :
  factory_ok fv → fv value t st = (o, st') → j < length (heap st) →
  heap st' !! j = heap st !! j.
Proof.
  intros [Hk _] Hrun Hj.
  destruct (Hk (length (heap st)) _ _ _ _ _ Hrun) as (_ & _ & H); [lia|].
  auto.
Qed.

Lemma factory_keeps_length fv value t st o st' :
  factory_ok fv → fv value t st = (o, st') →
  length (heap st) ≤ length (heap st') ∧ graph st' = graph st.
Proof.
  intros [Hk _] Hrun.
  destruct (Hk 0 _ _ _ _ _ Hrun) as (? & ? & _); [lia|]. auto.
Qed.

(** [wrap_method] without an instance and a function variable: both are made
    by the factory, the method variable is the next one, and both parts are
    re-rooted at it. *)
Lemma wrap_method_fresh_parts fv value t mn st s f i st1 fi st2 :
  factory_ok fv →
  py_getattr value "__self__" = Some s →
  py_getattr value "__func__" = Some f →
  fv s DanglingTracker st = (Return i, st1) →
  fv f DanglingTracker st1 = (Return fi, st2) →
  ∃ st3,
    wrap_method fv value t None None mn st = (Return (length (heap st2)), st3)
    ∧ graph st3 = graph st
    ∧ length (heap st3) = S (length (heap st2))
    ∧ (∀ j, j < length (heap st) → heap st3 !! j = heap st !! j)
    ∧ heap st3 !! length (heap st2) = Some (mkVar t (MethodVariable i fi mn))
    ∧ tracker_of (heap st3) i
      = Some (GetAttrTracker (length (heap st2)) "__self__")
    ∧ tracker_of (heap st3) fi
      = Some (GetAttrTracker (length (heap st2)) "__func__").
Proof.
  intros Hf Hs Hfn H1 H2.
  pose proof Hf as [_ Hr].
  destruct (Hr _ _ _ _ _ H1) as [Hi Hti].
  destruct (Hr _ _ _ _ _ H2) as [Hfi Htfi].
  pose proof (tracker_of_lt Hti) as Hi1.
  pose proof (tracker_of_lt Htfi) as Hfi2.
  destruct (factory_keeps_length _ _ _ _ _ _ Hf H1) as [Hl1 Hg1].
  destruct (factory_keeps_length _ _ _ _ _ _ Hf H2) as [Hl2 Hg2].
  set (m := length (heap st2)).
  set (mv := mkVar t (MethodVariable i fi mn)).
  destruct (heap st2 !! i) as [vi|] eqn:Ei;
    [|apply lookup_ge_None in Ei; lia].
  destruct (heap st2 !! fi) as [vf|] eqn:Ef;
    [|apply lookup_ge_None in Ef; lia].
  assert (Hne : i ≠ fi) by lia.
  set (h3 := <[fi := with_tracker (GetAttrTracker m "__func__") vf]>
               (<[i := with_tracker (GetAttrTracker m "__self__") vi]>
                  (heap st2 ++ [mv]))).
  exists (mkState (graph st2) h3 (layer_name_generator st2)).
  split.
  { unfold wrap_method. rewrite Hs, Hfn.
    rewrite (bind_Return _ _ _ _ _ H1), (bind_Return _ _ _ _ _ H2).
    unfold bind at 1. rewrite alloc_run. fold m mv.
    unfold bind, set_tracker, ret; simpl.
    rewrite lookup_app_l by lia. rewrite Ei. simpl.
    rewrite list_lookup_insert_ne by done.
    rewrite lookup_app_l by lia. rewrite Ef. reflexivity. }
  simpl. split; [congruence|].
  split. { unfold h3. rewrite !length_insert, length_app. simpl. lia. }
  split.
  { intros j Hj. unfold h3.
    rewrite !list_lookup_insert_ne by lia.
    rewrite lookup_app_l by lia.
    rewrite (factory_keeps_lookup _ _ _ _ _ _ _ Hf H2) by lia.
    apply (factory_keeps_lookup _ _ _ _ _ _ _ Hf H1). lia. }
  split.
  { unfold h3. rewrite !list_lookup_insert_ne by (fold m; lia).
    rewrite lookup_app_r by lia.
    replace (m - length (heap st2)) with 0 by (unfold m; lia).
    reflexivity. }
  split.
  - unfold h3. rewrite tracker_of_insert_ne by done.
    apply tracker_of_insert_eq. rewrite lookup_app_l by lia. done.
  - unfold h3. apply tracker_of_insert_eq.
    rewrite list_lookup_insert_ne by done.
    rewrite lookup_app_l by lia. done.
Qed.

Lemma wrap_method_result fv value t mn st m st' :
  factory_ok fv →
  wrap_method fv value t None None mn st = (Return m, st') →
  length (heap st) ≤ m ∧ tracker_of (heap st') m = Some t.
Proof.
  intros Hf Hrun. pose proof Hrun as Hrun0.
  unfold wrap_method in Hrun.
  destruct (py_getattr value "__self__") as [s|] eqn:Hs;
    [|discriminate].
  apply bind_inv in Hrun as [(i & st1 & H1 & Hrun)|[(e & _ & ?)|[_ ?]]];
    [|discriminate..].
  destruct (py_getattr value "__func__") as [f|] eqn:Hfn;
    [|discriminate].
  apply bind_inv in Hrun as [(fi & st2 & H2 & _)|[(e & _ & ?)|[_ ?]]];
    [|discriminate..].
  destruct (wrap_method_fresh_parts fv value t mn _ _ _ _ _ _ _
              Hf Hs Hfn H1 H2) as (st3 & Hw & _ & _ & _ & Hm & _).
  rewrite Hw in Hrun0. inversion Hrun0; subst.
  destruct (factory_keeps_length _ _ _ _ _ _ Hf H1).
  destruct (factory_keeps_length _ _ _ _ _ _ Hf H2).
  split; [lia|]. unfold tracker_of. rewrite Hm. reflexivity.
Qed.

(** A constructor that only tests the value and allocates. *)
Lemma alloc_some_ok (b : bool) t k n :
  sat (keeps n)
    (if b then (let* v := alloc (mkVar t k) in ret (Some v)) else ret None
     : M (option VarId)).
Proof.
  destruct b; [|apply sat_ret, _].
  apply sat_bind; [apply _|apply sat_alloc|]. intros. apply sat_ret, _.
Qed.

Lemma alloc_some_result (b : bool) t k st i st' :
  (if b then (let* v := alloc (mkVar t k) in ret (Some v)) else ret None
   : M (option VarId)) st = (Return (Some i), st') →
  length (heap st) ≤ i ∧ tracker_of (heap st') i = Some t.
Proof.
  destruct b; [|discriminate]. unfold bind, ret. rewrite alloc_run.
  intros H. inversion H; subst; simpl.
  split; [lia|]. apply (tracker_of_app_r _ (mkVar t k)).
Qed.

Lemma class_from_value_keeps fv c value t n :
  factory_ok fv → sat (keeps n) (class_from_value fv c value t).
Proof.
  intros Hf. destruct c; simpl; try apply alloc_some_ok.
  - unfold MethodVariable_from_value. destruct (ismethod value).
    + apply sat_bind; [apply _|by apply wrap_method_keeps|].
      intros. apply sat_ret, _.
    + apply sat_ret, _.
  - unfold PaddleLayerVariable_from_value.
    destruct (isinstance_Layer value); [|apply sat_ret, _].
    destruct (_ || _); [apply sat_ret, _|].
    destruct (module_in_paddle_nn value); [|apply sat_ret, _].
    apply sat_bind; [apply _|apply sat_next_layer_name|]. intros.
    apply sat_bind; [apply _|apply sat_alloc|]. intros. apply sat_ret, _.
  - destruct (other_from_value value); [|apply sat_ret, _].
    apply sat_bind; [apply _|apply sat_alloc|]. intros. apply sat_ret, _.
Qed.

Lemma class_from_value_result fv c value t st i st' :
  factory_ok fv →
  class_from_value fv c value t st = (Return (Some i), st') →
  length (heap st) ≤ i ∧ tracker_of (heap st') i = Some t.
Proof.
  intros Hf. destruct c; simpl; try apply alloc_some_result.
  - unfold MethodVariable_from_value. destruct (ismethod value);
      [|discriminate].
    intros H.
    apply bind_inv in H as [(m & st1 & H1 & H2)|[(e & _ & ?)|[_ ?]]];
      [|discriminate..].
    inversion H2; subst. eapply wrap_method_result; eauto.
  - unfold PaddleLayerVariable_from_value.
    destruct (isinstance_Layer value); [|discriminate].
    destruct (_ || _); [discriminate|].
    destruct (module_in_paddle_nn value); [|discriminate].
    unfold bind, ret, next_layer_name. rewrite alloc_run. simpl.
    intros H. inversion H; subst; simpl.
    split; [lia|].
    apply (tracker_of_app_r _ (mkVar t (PaddleLayerVariable value ∅ _))).
  - destruct (other_from_value value) as [k|]; [|discriminate].
    unfold bind, ret. rewrite alloc_run.
    intros H. inversion H; subst; simpl.
    split; [lia|]. apply (tracker_of_app_r _ (mkVar t k)).
Qed.

Lemma find_var_keeps fv cs value t n :
  factory_ok fv → sat (keeps n) (find_var fv cs value t).
Proof.
  intros Hf. induction cs as [|c cs IH]; simpl; [apply sat_ret, _|].
  apply sat_bind; [apply _|by apply class_from_value_keeps|].
  intros [v|]; [apply sat_ret, _|exact IH].
Qed.

Lemma find_var_result fv cs value t st i st' :
  factory_ok fv →
  find_var fv cs value t st = (Return (Some i), st') →
  length (heap st) ≤ i ∧ tracker_of (heap st') i = Some t.
Proof.
  intros Hf. revert st. induction cs as [|c cs IH]; intros st; simpl;
    [discriminate|].
  intros H.
  apply bind_inv in H as [([v|] & st1 & H1 & H2)|[(e & _ & ?)|[_ ?]]];
    [| |discriminate..].
  - inversion H2; subst. eapply class_from_value_result; eauto.
  - pose proof (class_from_value_keeps fv c value t 0 Hf _ _ _ H1) as K.
    destruct K as (_ & Hl & _); [lia|].
    destruct (IH _ H2) as [Hle Ht]. split; [lia|exact Ht].
Qed.

Lemma from_value_ok fuel : factory_ok (from_value fuel).
Proof.
  induction fuel as [|fuel IH].
  - split.
    + intros n value t. apply sat_out_of_fuel, _.
    + intros value t st i st' H. discriminate.
  - split.
    + intros n value t. simpl.
      apply sat_bind; [apply _|by apply find_var_keeps|].
      intros [v|]; [apply sat_ret, _|apply sat_raise, _].
    + intros value t st i st' H. simpl in H.
      apply bind_inv in H as [([v|] & st1 & H1 & H2)|[(e & _ & ?)|[_ ?]]];
        [|discriminate..].
      inversion H2; subst. eapply find_var_result; eauto.
Qed.

(** ** FunctionVariable.bind re-roots the function *)

Lemma get_py_type_keeps R i : Reflexive R → sat R (get_py_type i).
Proof.
  intros HR st o st' H. unfold get_py_type in H.
  apply bind_inv in H as [(v & st1 & H1 & H2)|[(e & H1 & _)|[H1 _]]].
  - assert (st1 = st) as ->.
    { unfold load in H1. destruct (heap st !! i) in H1; by inversion H1. }
    destruct (kind v); simpl in H2; inversion H2; subst; apply HR.
  - eapply sat_load; eauto.
  - eapply sat_load; eauto.
Qed.

Lemma get_py_type_inv i st o st' :
  get_py_type i st = (o, st') → st' = st.
Proof.
  intros H. unfold get_py_type in H.
  apply bind_inv in H as [(v & st1 & H1 & H2)|[(e & H1 & _)|[H1 _]]];
    unfold load in H1; destruct (heap st !! i) in H1; inversion H1; subst;
    try done.
  destruct (kind v); simpl in H2; by inversion H2.
Qed.

(** Every variable other than the function itself is left as it was. *)
Lemma FunctionVariable_bind_others fv self instance name st o st' :
  factory_ok fv →
  FunctionVariable_bind fv self instance name st = (o, st') →
  graph st' = graph st
  ∧ ∀ j, j ≠ self → j < length (heap st) → heap st' !! j = heap st !! j.
Proof.
  intros Hf Hrun. unfold FunctionVariable_bind in Hrun.
  unfold bind at 1 in Hrun. rewrite alloc_run in Hrun.
  set (st0 := mkState _ _ _) in Hrun.
  assert (H0 : graph st0 = graph st
               ∧ ∀ j, j < length (heap st) → heap st0 !! j = heap st !! j).
  { split; [done|]. intros j Hj. simpl. by apply lookup_app_l. }
  assert (Hl0 : length (heap st) ≤ length (heap st0)).
  { simpl. rewrite length_app. lia. }
  destruct H0 as [Hg0 Hk0].
  apply bind_inv in Hrun as [(ty & st1 & H1 & Hrun)|[(e & H1 & _)|[H1 _]]];
    apply get_py_type_inv in H1; subst; [|split; [done|]; auto..].
  apply bind_inv in Hrun as [(c & st2 & H2 & Hrun)|[(e & H2 & _)|[H2 _]]].
  - destruct (factory_keeps_length _ _ _ _ _ _ Hf H2) as [Hl2 Hg2].
    assert (Hk2 : ∀ j, j < length (heap st) → heap st2 !! j = heap st !! j).
    { intros j Hj.
      rewrite (factory_keeps_lookup _ _ _ _ _ _ _ Hf H2) by lia. auto. }
    apply bind_inv in Hrun as [(u & st3 & H3 & Hrun)|[(e & H3 & _)|[H3 _]]];
      apply set_tracker_inv in H3
        as [(v & Ev & _ & ->)|(_ & -> & _)];
      try (inversion Hrun; subst); simpl;
      try (split; [congruence|]; intros j Hne Hj;
           try rewrite list_lookup_insert_ne by done; auto).
  - destruct (factory_keeps_length _ _ _ _ _ _ Hf H2) as [Hl2 Hg2].
    split; [congruence|]. intros j _ Hj.
    rewrite (factory_keeps_lookup _ _ _ _ _ _ _ Hf H2) by lia. auto.
  - destruct (factory_keeps_length _ _ _ _ _ _ Hf H2) as [Hl2 Hg2].
    split; [congruence|]. intros j _ Hj.
    rewrite (factory_keeps_lookup _ _ _ _ _ _ _ Hf H2) by lia. auto.
Qed.

(** When [bind] returns, the function's tracker is the attribute [name] of
    the class variable made for the instance's type, and the method variable
    is the one allocated first. *)
Lemma FunctionVariable_bind_self fv self instance name st m st' :
  factory_ok fv →
  self < length (heap st) →
  FunctionVariable_bind fv self instance name st = (Return m, st') →
  m = length (heap st)
  ∧ heap st' !! m
    = Some (mkVar (GetAttrTracker instance name)
                  (MethodVariable instance self None))
  ∧ ∃ class_var,
      length (heap st) < class_var
      ∧ tracker_of (heap st') class_var
        = Some (GetAttrTracker instance "__class__")
      ∧ tracker_of (heap st') self = Some (GetAttrTracker class_var name).
Proof.
  intros Hf Hself Hrun. unfold FunctionVariable_bind in Hrun.
  unfold bind at 1 in Hrun. rewrite alloc_run in Hrun.
  set (mv := mkVar _ (MethodVariable _ _ _)) in Hrun.
  set (st0 := mkState _ _ _) in Hrun.
  apply bind_inv in Hrun as [(ty & st1 & H1 & Hrun)|[(e & _ & ?)|[_ ?]]];
    [|discriminate..].
  apply get_py_type_inv in H1; subst.
  apply bind_inv in Hrun as [(c & st2 & H2 & Hrun)|[(e & _ & ?)|[_ ?]]];
    [|discriminate..].
  destruct Hf as [Hk Hr]. destruct (Hr _ _ _ _ _ H2) as [Hc Htc].
  pose proof (tracker_of_lt Htc) as Hc2.
  destruct (Hk (length (heap st0)) _ _ _ _ _ H2) as (_ & Hl2 & Hk2); [lia|].
  assert (Hlen0 : length (heap st0) = S (length (heap st))).
  { simpl. rewrite length_app. simpl. lia. }
  apply bind_inv in Hrun as [(u & st3 & H3 & Hrun)|[(e & _ & ?)|[_ ?]]];
    [|discriminate..].
  apply set_tracker_inv in H3 as [(v & Ev & _ & ->)|(_ & _ & e & ?)];
    [|discriminate].
  inversion Hrun; subst; simpl.
  split; [done|]. split.
  { rewrite list_lookup_insert_ne by lia. rewrite Hk2 by lia. simpl.
    rewrite lookup_app_r by lia.
    replace (length (heap st) - length (heap st)) with 0 by lia. done. }
  exists c. split; [lia|]. split.
  - rewrite tracker_of_insert_ne by lia. done.
  - by apply tracker_of_insert_eq.
Qed.

End Factory.

(** * The claims *)

Section Claims.
Context `{HostI : Host} `{EnvI : !Env}.

Local Abbreviation M := (M Graph).

(** ** UserDefinedFunctionVariable.call_function *)

Lemma handle_psdb_function_other value args kwargs (st : State Graph) :
  value ≠ ASSERT → value ≠ psdb_print → value ≠ psdb_breakpoint →
  handle_psdb_function value args kwargs st = (Return None, st).
Proof.
  intros H1 H2 H3. unfold handle_psdb_function.
  destruct (decide (value = ASSERT)); [done|].
  destruct (decide (value = psdb_print)); [done|].
  destruct (decide (value = psdb_breakpoint)); [done|].
  reflexivity.
Qed.

Lemma call_unfold fuel self args kwargs v (st : State Graph) :
  heap st !! self = Some v →
  call (S fuel) self args kwargs st
  = match kind v with
    | UserDefinedFunctionVariable value =>
        UserDefinedFunctionVariable_call_function self value args kwargs
    | PaddleApiVariable value =>
        PaddleApiVariable_call_function value args kwargs
    | TensorFunctionVariable _ method_name =>
        TensorFunctionVariable_call_function method_name args kwargs
    | MethodVariable bound_instance fn _ =>
        MethodVariable_call_function (call fuel) bound_instance fn args kwargs
    | UserDefinedLayerVariable value _ =>
        UserDefinedLayerVariable_call_function (call fuel) self value
          args kwargs
    | PaddleLayerVariable _ _ _ =>
        PaddleLayerVariable_call_function self args kwargs
    | BuiltinVariable value =>
        BuiltinVariable_call_function (from_value fuel) (call fuel)
          value args kwargs
    | UserDefinedGeneratorVariable value =>
        UserDefinedGeneratorVariable_call_function (from_value fuel)
          self value args kwargs
    | ConstantVariable _ | PrintStmtVariable _ _ | ObjectVariable _ =>
        call_other self args kwargs
    end st.
Proof.
  intros Hv. simpl. unfold bind at 1. rewrite (load_run _ _ _ Hv).
  reflexivity.
Qed.

(** C1.  A call of a user-defined function that is not a debug intrinsic
    saves a checkpoint of the graph as it is before the call and runs the
    inline executor.  When the executor returns, its result and its state
    are the call's: nothing is restored.  When it raises a
    [FallbackErrorBase], the graph is set to [restore_memo] of that
    checkpoint and a [BreakGraphError] whose reason ends with the text of the
    cause is raised; by the round trip of [save_memo] and [restore_memo] the
    graph is then the graph before the call.  Any other exception passes
    through. *)
Theorem UserDefinedFunctionVariable_call_function_transactional
    (fuel : nat) (self : VarId) (v : VariableBase) (value : PyObj)
    (args : list VarId) (kwargs : Kwargs) (st : State Graph) :
  (∀ g g', restore_memo (save_memo g) g' = g) →
  heap st !! self = Some v →
  kind v = UserDefinedFunctionVariable value →
  value ≠ ASSERT → value ≠ psdb_print → value ≠ psdb_breakpoint →
  match inline_call self args kwargs st with
  | (Return output, st1) =>
      call (S fuel) self args kwargs st = (Return output, st1)
  | (Raise e, st1) =>
      if is_FallbackErrorBase e then
        call (S fuel) self args kwargs st
        = (Raise (BreakGraphError
                    (Some (py_str value +:+ " is raise a inline call error. "
                           +:+ exn_str e))),
           mkState (restore_memo (save_memo (graph st)) (graph st1))
                   (heap st1) (layer_name_generator st1))
        ∧ restore_memo (save_memo (graph st)) (graph st1) = graph st
      else call (S fuel) self args kwargs st = (Raise e, st1)
  | (OutOfFuel, st1) => call (S fuel) self args kwargs st = (OutOfFuel, st1)
  end.
Proof.
  intros Hround Hv Hk Ha Hp Hb.
  rewrite (call_unfold _ _ _ _ _ _ Hv), Hk.
  unfold UserDefinedFunctionVariable_call_function.
  rewrite (bind_Return _ _ _ _ _
             (handle_psdb_function_other value args kwargs st Ha Hp Hb)).
  unfold bind, get_graph, try_except, modify_graph, raise.
  destruct (inline_call self args kwargs st) as [[output|e|] st1];
    [reflexivity| |reflexivity].
  destruct (is_FallbackErrorBase e); [|reflexivity].
  split; [reflexivity|apply Hround].
Qed.

(** ** PaddleApiVariable and TensorFunctionVariable *)

(** C4.  A paddle API in the unsupported set makes the call raise with the
    state exactly as it was: a [BreakGraphError] naming the API when the API
    has a [__name__]; an API outside the set is handed to
    [call_paddle_api], whose outcome is the call's.  A tensor method in its
    unsupported set makes the call raise a [BreakGraphError] with the state
    as it was; any other is handed to [call_tensor_method].  One case is
    missed: the message reads [__name__] without the test the builtin's
    message makes, so that for an unsupported API without that attribute
    the call raises [AttributeError] and not a break-graph condition. *)
Theorem unsupported_api_breaks_before_any_mutation
    (fuel : nat) (self : VarId) (v : VariableBase)
    (args : list VarId) (kwargs : Kwargs) (st : State Graph) :
  heap st !! self = Some v →
  (∀ value, kind v = PaddleApiVariable value →
     (is_break_graph_api value = true →
        (∀ n, py_name value = Some n →
           call (S fuel) self args kwargs st
           = (Raise (BreakGraphError
                       (Some ("breakgraph by unsupport function: " +:+ n))),
              st))
        ∧ (py_name value = None →
           call (S fuel) self args kwargs st = (Raise AttributeError, st)
           ∧ is_BreakGraphError AttributeError = false))
     ∧ (is_break_graph_api value = false →
          call (S fuel) self args kwargs st
          = call_paddle_api value args kwargs st))
  ∧ (∀ value method_name, kind v = TensorFunctionVariable value method_name →
       (is_break_graph_tensor_methods method_name = true →
          call (S fuel) self args kwargs st
          = (Raise (BreakGraphError None), st))
       ∧ (is_break_graph_tensor_methods method_name = false →
            call (S fuel) self args kwargs st
            = call_tensor_method method_name args kwargs st)).
Proof.
  intros Hv. rewrite (call_unfold _ _ _ _ _ _ Hv). split.
  - intros value ->. unfold PaddleApiVariable_call_function.
    split; intros ->; [|reflexivity].
    split.
    + intros n ->. reflexivity.
    + intros ->. split; reflexivity.
  - intros value method_name ->.
    unfold TensorFunctionVariable_call_function.
    split; intros ->; reflexivity.
Qed.

(** C7.  A tensor method in the unsupported set makes the call raise a
    [BreakGraphError] constructed without any argument: the condition
    carries no reason string. *)
Theorem TensorFunctionVariable_break_carries_no_reason
    (fuel : nat) (self : VarId) (v : VariableBase) (value : PyObj)
    (method_name : string) (args : list VarId) (kwargs : Kwargs)
    (st : State Graph) :
  heap st !! self = Some v →
  kind v = TensorFunctionVariable value method_name →
  is_break_graph_tensor_methods method_name = true →
  ∃ e, call (S fuel) self args kwargs st = (Raise e, st)
       ∧ is_BreakGraphError e = true
       ∧ reason_of e = None.
Proof.
  intros Hv Hk Hb. exists (BreakGraphError None).
  rewrite (call_unfold _ _ _ _ _ _ Hv), Hk.
  unfold TensorFunctionVariable_call_function. rewrite Hb. done.
Qed.

(** ** BuiltinVariable.call_function *)

Lemma first_of_sorted_args m args operand (st : State Graph) :
  checked_operand m args = Some operand →
  first_of (if is_reverse m then reverse args else args) st
  = (Return operand, st).
Proof.
  unfold checked_operand. destruct (is_reverse m); intros H.
  - rewrite <- head_reverse in H.
    destruct (reverse args); simpl in *; by inversion H.
  - destruct args; simpl in *; by inversion H.
Qed.

Lemma checked_operand_head m args operand :
  checked_operand m args = Some operand → ∃ a0, head args = Some a0.
Proof.
  unfold checked_operand. destruct args as [|a args']; simpl; [|eauto].
  destruct (is_reverse m); discriminate.
Qed.

Lemma magic_method_scan_skip fv callk pre rest args (st : State Graph) :
  Forall (not_defined_on_operand st args) pre →
  magic_method_scan fv callk (pre ++ rest) args st
  = magic_method_scan fv callk rest args st.
Proof.
  induction 1 as [|m pre (operand & ty & Hop & Hty & Hno) _ IH];
    [reflexivity|].
  simpl. unfold bind at 1. rewrite (first_of_sorted_args _ _ _ _ Hop).
  unfold bind at 1. rewrite Hty, Hno. exact IH.
Qed.

Lemma magic_method_scan_match fv callk m rest args operand arg_type class_fn
    a0 (st : State Graph) :
  checked_operand m args = Some operand →
  get_py_type operand st = (Return arg_type, st) →
  py_getattr arg_type (mm_name m) = Some class_fn →
  head args = Some a0 →
  magic_method_scan fv callk (m :: rest) args st
  = (let* class_var := fv arg_type (GetAttrTracker a0 "__class__") in
     match py_name class_fn with
     | None => raise AttributeError
     | Some class_fn_name =>
         let* fn_var :=
           fv class_fn (GetAttrTracker class_var class_fn_name) in
         let* r := callk fn_var args ∅ in
         ret (Some r)
     end) st.
Proof.
  intros Hop Hty Hdef Ha0.
  simpl. unfold bind at 1. rewrite (first_of_sorted_args _ _ _ _ Hop).
  unfold bind at 1. rewrite Hty, Hdef.
  destruct args as [|a args']; [discriminate|]. simpl in Ha0.
  inversion Ha0; subst. reflexivity.
Qed.

Lemma bind_ret_Some {A} (c : M A) (k : option A → M A) st :
  (∀ r, k (Some r) = ret r) →
  bind (let* r := c in ret (Some r)) k st = c st.
Proof.
  intros Hk. unfold bind, ret. destruct (c st) as [[a|e|] st1]; try done.
  rewrite Hk. reflexivity.
Qed.

Lemma magic_method_scan_no_match fv callk ms args (st : State Graph) :
  Forall (not_defined_on_operand st args) ms →
  magic_method_scan fv callk ms args st = (Return None, st).
Proof.
  intros H. rewrite <- (app_nil_r ms).
  rewrite magic_method_scan_skip by done. reflexivity.
Qed.

(** Without a positional argument the scan cannot take [sorted_args[0]]. *)
Lemma magic_method_scan_without_arguments fv callk m ms (st : State Graph) :
  magic_method_scan fv callk (m :: ms) [] st = (Raise IndexError, st).
Proof. simpl. by destruct (is_reverse m). Qed.

Lemma BuiltinVariable_call_unfold fuel self v value args kwargs
    (st : State Graph) :
  heap st !! self = Some v → kind v = BuiltinVariable value →
  call (S fuel) self args kwargs st
  = match Dispatcher_dispatch value args kwargs (heap st) with
    | Some handler => handler args kwargs st
    | None =>
        (let* found :=
           magic_method_scan (from_value fuel) (call fuel)
             (magic_method_builtin_dispatch value) args in
         match found with
         | Some r => ret r
         | None =>
             raise (BreakGraphError
                      (Some ("Not support builtin function: "
                             +:+ match py_name value with
                                 | Some n => n
                                 | None => py_str value
                                 end)))
         end) st
    end.
Proof.
  intros Hv Hk. rewrite (call_unfold _ _ _ _ _ _ Hv), Hk.
  unfold BuiltinVariable_call_function, bind at 1, get_heap.
  destruct (Dispatcher_dispatch value args kwargs (heap st)); reflexivity.
Qed.

(** The call of a builtin at the first magic method that matches. *)
Lemma BuiltinVariable_call_at_first_match
    (fuel : nat) (self : VarId) (v : VariableBase) (value : PyObj)
    (args : list VarId) (kwargs : Kwargs) (st : State Graph)
    (pre post : list MagicMethod) (m : MagicMethod)
    (operand : VarId) (arg_type class_fn : PyObj) :
  heap st !! self = Some v →
  kind v = BuiltinVariable value →
  Dispatcher_dispatch value args kwargs (heap st) = None →
  magic_method_builtin_dispatch value = pre ++ m :: post →
  Forall (not_defined_on_operand st args) pre →
  checked_operand m args = Some operand →
  get_py_type operand st = (Return arg_type, st) →
  py_getattr arg_type (mm_name m) = Some class_fn →
  ∃ a0, head args = Some a0 ∧
    call (S fuel) self args kwargs st
    = (let* class_var :=
         from_value fuel arg_type (GetAttrTracker a0 "__class__") in
       match py_name class_fn with
       | None => raise AttributeError
       | Some class_fn_name =>
           let* fn_var :=
             from_value fuel class_fn
               (GetAttrTracker class_var class_fn_name) in
           call fuel fn_var args ∅
       end) st.
Proof.
  intros Hv Hk Hd Hms Hpre Hop Hty Hdef.
  destruct (checked_operand_head _ _ _ Hop) as [a0 Ha0].
  exists a0. split; [exact Ha0|].
  rewrite (BuiltinVariable_call_unfold _ _ _ _ _ _ _ Hv Hk), Hd, Hms.
  unfold bind at 1. rewrite magic_method_scan_skip by done.
  rewrite (magic_method_scan_match _ _ _ _ _ _ _ _ _ _ Hop Hty Hdef Ha0).
  unfold bind, ret, raise.
  destruct (from_value fuel arg_type _ st) as [[cv|e|] st1]; try done.
  destruct (py_name class_fn) as [n|]; try done.
  destruct (from_value fuel class_fn _ st1) as [[fv|e|] st2]; try done.
  destruct (call fuel fv args ∅ st2) as [[r|e|] st3]; done.
Qed.

(** C2.  A call of a builtin first asks the dispatcher, with the wrapped
    callable and the arguments; a handler that is found is run on the
    arguments and its outcome is the call's.  Only without a handler are
    the magic methods scanned: at the first candidate whose operand's type
    defines the method, the method is made a variable and called, and its
    outcome is the call's; when every candidate has an operand and no
    operand's type defines the method, the call raises the
    [BreakGraphError] that names the builtin, with the state as it was.
    One case is missed: with a candidate to try and no positional argument
    there is neither a handler nor a match, yet the call raises
    [IndexError] at [sorted_args[0]] and not a break-graph condition. *)
Theorem BuiltinVariable_call_function_tiers
    (fuel : nat) (self : VarId) (v : VariableBase) (value : PyObj)
    (args : list VarId) (kwargs : Kwargs) (st : State Graph) :
  heap st !! self = Some v →
  kind v = BuiltinVariable value →
  (∀ handler,
     Dispatcher_dispatch value args kwargs (heap st) = Some handler →
     call (S fuel) self args kwargs st = handler args kwargs st)
  ∧ (Dispatcher_dispatch value args kwargs (heap st) = None →
     (∀ pre m post operand arg_type class_fn,
        magic_method_builtin_dispatch value = pre ++ m :: post →
        Forall (not_defined_on_operand st args) pre →
        checked_operand m args = Some operand →
        get_py_type operand st = (Return arg_type, st) →
        py_getattr arg_type (mm_name m) = Some class_fn →
        ∃ a0, head args = Some a0 ∧
          call (S fuel) self args kwargs st
          = (let* class_var :=
               from_value fuel arg_type (GetAttrTracker a0 "__class__") in
             match py_name class_fn with
             | None => raise AttributeError
             | Some class_fn_name =>
                 let* fn_var :=
                   from_value fuel class_fn
                     (GetAttrTracker class_var class_fn_name) in
                 call fuel fn_var args ∅
             end) st)
     ∧ (Forall (not_defined_on_operand st args)
          (magic_method_builtin_dispatch value) →
        call (S fuel) self args kwargs st
        = (Raise (BreakGraphError
                    (Some ("Not support builtin function: "
                           +:+ default (py_str value) (py_name value)))),
           st))
     ∧ (magic_method_builtin_dispatch value ≠ [] → args = [] →
        call (S fuel) self args kwargs st = (Raise IndexError, st)
        ∧ is_BreakGraphError IndexError = false)).
Proof.
  intros Hv Hk. split.
  - intros handler Hd.
    rewrite (BuiltinVariable_call_unfold _ _ _ _ _ _ _ Hv Hk), Hd.
    reflexivity.
  - intros Hd. split; [|split].
    + intros pre m post operand arg_type class_fn Hms Hpre Hop Hty Hdef.
      eapply BuiltinVariable_call_at_first_match; eauto.
    + intros Hno.
      rewrite (BuiltinVariable_call_unfold _ _ _ _ _ _ _ Hv Hk), Hd.
      unfold bind. rewrite magic_method_scan_no_match by done.
      destruct (py_name value); reflexivity.
    + intros Hms ->. split; [|reflexivity].
      rewrite (BuiltinVariable_call_unfold _ _ _ _ _ _ _ Hv Hk), Hd.
      destruct (magic_method_builtin_dispatch value) as [|m ms]; [done|].
      unfold bind. rewrite magic_method_scan_without_arguments.
      reflexivity.
Qed.


(** C10.  At a match in the scan of the magic methods, the class variable is
    made with the tracker [GetAttrTracker(args[0], "__class__")] and the
    function variable with a tracker on that class variable, and they carry
    these trackers when the method is called: the first positional argument
    is the root also when the name is reflected and the class is the type of
    the last argument. *)
Theorem magic_method_trackers_rooted_at_first_argument
    (fuel : nat) (self : VarId) (v : VariableBase) (value : PyObj)
    (args : list VarId) (kwargs : Kwargs) (st st1 st2 : State Graph)
    (pre post : list MagicMethod) (m : MagicMethod)
    (operand a0 class_var fn_var : VarId) (arg_type class_fn : PyObj)
    (class_fn_name : string) :
  heap st !! self = Some v →
  kind v = BuiltinVariable value →
  Dispatcher_dispatch value args kwargs (heap st) = None →
  magic_method_builtin_dispatch value = pre ++ m :: post →
  Forall (not_defined_on_operand st args) pre →
  checked_operand m args = Some operand →
  get_py_type operand st = (Return arg_type, st) →
  py_getattr arg_type (mm_name m) = Some class_fn →
  head args = Some a0 →
  from_value fuel arg_type (GetAttrTracker a0 "__class__") st
  = (Return class_var, st1) →
  py_name class_fn = Some class_fn_name →
  from_value fuel class_fn (GetAttrTracker class_var class_fn_name) st1
  = (Return fn_var, st2) →
  tracker_of (heap st2) class_var = Some (GetAttrTracker a0 "__class__")
  ∧ tracker_of (heap st2) fn_var
    = Some (GetAttrTracker class_var class_fn_name)
  ∧ call (S fuel) self args kwargs st = call fuel fn_var args ∅ st2.
Proof.
  intros Hv Hk Hd Hms Hpre Hop Hty Hdef Ha0 Hc Hn Hf.
  pose proof (from_value_ok fuel) as Hok.
  destruct Hok as [Hkeep Hres].
  destruct (Hres _ _ _ _ _ Hc) as [_ Htc].
  destruct (Hres _ _ _ _ _ Hf) as [_ Htf].
  split; [|split; [exact Htf|]].
  - apply (keeps_trackers_kept st1 st2); [|exact Htc].
    eapply Hkeep; eauto.
  - destruct (BuiltinVariable_call_at_first_match
                fuel self v value args kwargs st pre post m operand
                arg_type class_fn Hv Hk Hd Hms Hpre Hop Hty Hdef)
      as (a0' & Ha0' & ->).
    rewrite Ha0 in Ha0'. inversion Ha0'; subst a0'.
    rewrite (bind_Return _ _ _ _ _ Hc), Hn.
    rewrite (bind_Return _ _ _ _ _ Hf). reflexivity.
Qed.

(** ** UserDefinedGeneratorVariable.call_function *)

(** C9.  A call of a generator function calls the wrapped function with no
    argument at all and passes what it returns to the factory with the
    tracker [DummyTracker([self])]: the call is the same whatever positional
    and keyword arguments it is given, the variable it returns carries that
    tracker, and the graph is as it was. *)
Theorem UserDefinedGeneratorVariable_call_function_discards_arguments
    (fuel : nat) (self : VarId) (v : VariableBase) (value : PyObj)
    (args : list VarId) (kwargs : Kwargs) (st : State Graph) :
  heap st !! self = Some v →
  kind v = UserDefinedGeneratorVariable value →
  call (S fuel) self args kwargs st
  = (let* iter_ := host_call value [] in
     from_value fuel iter_ (DummyTracker [self])) st
  ∧ call (S fuel) self args kwargs st = call (S fuel) self [] ∅ st
  ∧ ∀ o st', call (S fuel) self args kwargs st = (o, st') →
      graph st' = graph st
      ∧ ∀ r, o = Return r →
          tracker_of (heap st') r = Some (DummyTracker [self]).
Proof.
  intros Hv Hk.
  rewrite !(call_unfold _ _ _ _ _ _ Hv), Hk.
  unfold UserDefinedGeneratorVariable_call_function.
  split; [reflexivity|]. split; [reflexivity|].
  intros o st' Hrun. destruct (from_value_ok fuel) as [Hkeep Hres].
  unfold bind, host_call in Hrun.
  destruct (py_call value []) as [e|iter_]; simpl in Hrun.
  - inversion Hrun; subst. split; [done|]. intros r ?; discriminate.
  - split.
    + eapply (keeps_graph 0); [lia|]. eapply Hkeep; eauto.
    + intros r ->. eapply Hres; eauto.
Qed.

(** ** MethodVariable.wrap_method *)

(** C6.  Without an instance and a function variable, [wrap_method] has the
    factory make both with a [DanglingTracker], makes the method variable
    next, and then gives the two the trackers
    [GetAttrTracker(method_var, "__self__")] and
    [GetAttrTracker(method_var, "__func__")]: once it returns neither is
    dangling.  A variable the caller supplies as instance or function keeps
    the tracker it had. *)
Theorem wrap_method_reroots_the_parts_it_creates
    (fuel : nat) (value : PyObj) (t : Tracker) (method_name : option string)
    (st : State Graph) :
  (∀ s f instance_var st1 fn_var st2,
     py_getattr value "__self__" = Some s →
     py_getattr value "__func__" = Some f →
     from_value fuel s DanglingTracker st = (Return instance_var, st1) →
     from_value fuel f DanglingTracker st1 = (Return fn_var, st2) →
     tracker_of (heap st1) instance_var = Some DanglingTracker
     ∧ tracker_of (heap st2) fn_var = Some DanglingTracker
     ∧ ∃ method_var st3,
         wrap_method (from_value fuel) value t None None method_name st
         = (Return method_var, st3)
         ∧ heap st3 !! method_var
           = Some (mkVar t (MethodVariable instance_var fn_var method_name))
         ∧ tracker_of (heap st3) instance_var
           = Some (GetAttrTracker method_var "__self__")
         ∧ tracker_of (heap st3) fn_var
           = Some (GetAttrTracker method_var "__func__")
         ∧ tracker_of (heap st3) instance_var ≠ Some DanglingTracker
         ∧ tracker_of (heap st3) fn_var ≠ Some DanglingTracker)
  ∧ (∀ instance fn o st' supplied t0,
       wrap_method (from_value fuel) value t instance fn method_name st
       = (o, st') →
       instance = Some supplied ∨ fn = Some supplied →
       tracker_of (heap st) supplied = Some t0 →
       tracker_of (heap st') supplied = Some t0).
Proof.
  pose proof (from_value_ok fuel) as Hok. split.
  - intros s f i st1 fi st2 Hs Hf H1 H2.
    destruct Hok as [Hkeep Hres].
    destruct (Hres _ _ _ _ _ H1) as [_ Hti].
    destruct (Hres _ _ _ _ _ H2) as [_ Htf].
    split; [exact Hti|]. split; [exact Htf|].
    destruct (wrap_method_fresh_parts (from_value fuel) value t method_name
                st s f i st1 fi st2 (conj Hkeep Hres) Hs Hf H1 H2)
      as (st3 & Hw & _ & _ & _ & Hm & Hi & Hfi).
    exists (length (heap st2)), st3.
    rewrite Hi, Hfi. repeat split; try done.
  - intros instance fn o st' supplied t0 Hrun _ Ht.
    eapply keeps_trackers_kept; [|exact Ht].
    eapply wrap_method_keeps; eauto.
Qed.

(** ** Mutation of trackers *)

Lemma sat_modify_graph f : sat trackers_kept (modify_graph (G := Graph) f).
Proof. intros st o st' H. inversion H; subst. intros i t Ht. exact Ht. Qed.

Lemma sat_alloc_trackers v : sat trackers_kept (alloc (G := Graph) v).
Proof. apply sat_keeps_trackers_kept. intros n. apply sat_alloc. Qed.

Lemma sat_from_value_trackers fuel value t :
  sat trackers_kept (from_value fuel value t).
Proof.
  apply sat_keeps_trackers_kept. intros n. apply (from_value_ok fuel).
Qed.

Lemma sat_handle_psdb_function value args kwargs :
  sat trackers_kept (handle_psdb_function value args kwargs).
Proof.
  unfold handle_psdb_function, wrap_literal, host_call.
  repeat first
    [ apply sat_ret, _ | apply sat_raise, _ | apply sat_alloc_trackers
    | apply sat_modify_graph | apply sat_load, _
    | apply sat_bind; [apply _| |intros ?]
    | match goal with
      | |- sat _ (if ?b then _ else _) => destruct b
      | |- sat _ (match ?x with _ => _ end) => destruct x
      end ].
Qed.

Lemma sat_magic_method_scan fv callk ms args :
  (∀ value t, sat trackers_kept (fv value t)) →
  (∀ s a k, sat trackers_kept (callk s a k)) →
  sat trackers_kept (magic_method_scan fv callk ms args).
Proof.
  intros Hfv Hcall. induction ms as [|m ms IH]; simpl; [apply sat_ret, _|].
  apply sat_bind; [apply _| |intros operand].
  { unfold first_of. destruct (if is_reverse m then _ else _);
      [apply sat_raise, _|apply sat_ret, _]. }
  apply sat_bind; [apply _|apply get_py_type_keeps, _|intros arg_type].
  destruct (py_getattr arg_type (mm_name m)) as [class_fn|]; [|exact IH].
  apply sat_bind; [apply _| |intros a0].
  { unfold first_of. destruct args; [apply sat_raise, _|apply sat_ret, _]. }
  apply sat_bind; [apply _|apply Hfv|intros class_var].
  destruct (py_name class_fn); [|apply sat_raise, _].
  apply sat_bind; [apply _|apply Hfv|intros fn_var].
  apply sat_bind; [apply _|apply Hcall|intros r]. apply sat_ret, _.
Qed.

Lemma sat_call_trackers fuel :
  collaborators_keep_trackers →
  ∀ self args kwargs, sat trackers_kept (call fuel self args kwargs).
Proof.
  intros (Hinl & Hapi & Htm & Hlayer & Hother & Hdisp).
  induction fuel as [|fuel IH]; intros self args kwargs; simpl;
    [apply sat_out_of_fuel, _|].
  apply sat_bind; [apply _|apply sat_load, _|intros v].
  destruct (kind v); try apply Hother.
  - unfold UserDefinedFunctionVariable_call_function.
    apply sat_bind; [apply _|apply sat_handle_psdb_function|intros [r|]];
      [apply sat_ret, _|].
    apply sat_bind; [apply _|apply sat_get_graph, _|intros g].
    apply sat_try_except; [apply _|apply Hinl|intros e].
    apply sat_bind; [apply _|apply sat_modify_graph|intros _].
    apply sat_raise, _.
  - unfold PaddleApiVariable_call_function.
    destruct (is_break_graph_api value); [|apply Hapi].
    destruct (py_name value); apply sat_raise, _.
  - unfold TensorFunctionVariable_call_function.
    destruct (is_break_graph_tensor_methods method_name);
      [apply sat_raise, _|apply Htm].
  - apply IH.
  - unfold UserDefinedLayerVariable_call_function.
    destruct (py_getattr (py_type value) "__call__"); [|apply sat_raise, _].
    apply sat_bind; [apply _|apply sat_alloc_trackers|intros fn_var].
    apply IH.
  - apply Hlayer.
  - unfold BuiltinVariable_call_function.
    intros st o st' Hrun. unfold bind at 1, get_heap in Hrun.
    destruct (Dispatcher_dispatch value args kwargs (heap st)) eqn:Hd.
    + eapply Hdisp; eauto.
    + revert Hrun. generalize st o st'.
      change (sat trackers_kept
        (let* found :=
           magic_method_scan (from_value fuel) (call fuel)
             (magic_method_builtin_dispatch value) args in
         match found with
         | Some r => ret r
         | None =>
             raise (BreakGraphError
                      (Some ("Not support builtin function: "
                             +:+ match py_name value with
                                 | Some n => n
                                 | None => py_str value
                                 end)))
         end)).
      apply sat_bind; [apply _| |intros [r|]];
        [|apply sat_ret, _|apply sat_raise, _].
      apply sat_magic_method_scan; [apply sat_from_value_trackers|apply IH].
  - unfold UserDefinedGeneratorVariable_call_function, host_call.
    apply sat_bind; [apply _| |intros iter_].
    + destruct (py_call value []); [apply sat_raise, _|apply sat_ret, _].
    + apply sat_from_value_trackers.
Qed.

Lemma sat_proxy_getter fuel self value name :
  sat trackers_kept (proxy_getter (from_value fuel) self value name).
Proof.
  apply sat_keeps_trackers_kept. intros n.
  pose proof (from_value_ok fuel) as Hok. pose proof Hok as [Hk _].
  unfold proxy_getter.
  repeat first
    [ apply sat_ret, _ | apply sat_raise, _ | apply Hk
    | apply get_py_type_keeps, _ | by apply wrap_method_keeps
    | apply sat_bind; [apply _| |intros ?]
    | match goal with
      | |- sat _ (if ?b then _ else _) => destruct b
      | |- sat _ (match ?x with _ => _ end) => destruct x
      end ].
Qed.

(** C5, amended.  Two operations of the callable hierarchy assign a tracker
    after construction.  [wrap_method] re-roots only the instance and
    function variables it created itself: every variable there was before
    the call keeps its tracker.  [FunctionVariable.bind] overwrites the
    tracker of the function variable it is called on, whatever that tracker
    was and at every call, with the attribute of a new class variable, and
    leaves every other variable's tracker alone.  The factory, the proxy
    getter of a layer and, as long as the collaborators do no such thing,
    every [call_function] keep the tracker of every variable there is. *)
Theorem tracker_assigned_only_by_wrap_method_and_bind (fuel : nat) :
  collaborators_keep_trackers →
  (∀ value t, sat trackers_kept (from_value fuel value t))
  ∧ (∀ value t instance fn method_name,
       sat trackers_kept
         (wrap_method (from_value fuel) value t instance fn method_name))
  ∧ (∀ self value name,
       sat trackers_kept (proxy_getter (from_value fuel) self value name))
  ∧ (∀ self args kwargs, sat trackers_kept (call fuel self args kwargs))
  ∧ (∀ self instance name st o st',
       FunctionVariable_bind (from_value fuel) self instance name st
       = (o, st') →
       (∀ j t, j ≠ self → tracker_of (heap st) j = Some t →
               tracker_of (heap st') j = Some t)
       ∧ ∀ m, o = Return m → self < length (heap st) →
           ∃ class_var,
             length (heap st) < class_var
             ∧ tracker_of (heap st') self
               = Some (GetAttrTracker class_var name)).
Proof.
  intros Hcollab. split; [apply sat_from_value_trackers|].
  split.
  { intros. apply sat_keeps_trackers_kept. intros n.
    apply wrap_method_keeps, from_value_ok. }
  split; [intros; apply sat_proxy_getter|].
  split; [by apply sat_call_trackers|].
  intros self instance name st o st' Hrun. split.
  - intros j t Hne Ht.
    destruct (FunctionVariable_bind_others _ _ _ _ _ _ _
                (from_value_ok fuel) Hrun) as [_ Hk].
    unfold tracker_of in *. rewrite Hk; [done|done|].
    by apply tracker_of_lt in Ht.
  - intros m -> Hself.
    destruct (FunctionVariable_bind_self _ _ _ _ _ _ _
                (from_value_ok fuel) Hself Hrun)
      as (_ & _ & c & Hc & _ & Hs).
    eauto.
Qed.

(** ** LayerVariable.make_stringify_guard *)

Lemma union_free_vars_one (d : gmap string PyObj) : union_free_vars [d] = d.
Proof. unfold union_free_vars. simpl. apply (right_id_L ∅ (∪)). Qed.

(** C8.  The guard of a layer whose tracker is traceable is a list of
    exactly two clauses, the identity of the frame expression with the
    wrapped layer by [id] and the equality of its [training] flag with the
    flag's value; both are made of the tracker's frame expression and the
    layer alone, whatever the proxy holds of the attributes that were
    read. *)
Theorem LayerVariable_guard_is_two_clauses
    (self : VarId) (v : VariableBase) (value : PyObj) (st : State Graph) :
  heap st !! self = Some v →
  (∃ proxy, kind v = UserDefinedLayerVariable value proxy)
  ∨ (∃ proxy name, kind v = PaddleLayerVariable value proxy name) →
  is_traceable (tracker <$> heap st) (tracker v) = true →
  LayerVariable_make_stringify_guard self st
  = (Return
       (let frame_value_tracer :=
          trace_value_from_frame (tracker <$> heap st) (tracker v) in
        [ mkStringifyExpression _
            ("id(" +:+ expr frame_value_tracer +:+ ") == "
             +:+ pretty (py_id value))
            (free_vars frame_value_tracer);
          mkStringifyExpression _
            (expr frame_value_tracer +:+ ".training == "
             +:+ py_str (layer_training value))
            (free_vars frame_value_tracer) ]),
     st).
Proof.
  intros Hv Hkind Htr.
  unfold LayerVariable_make_stringify_guard, check_guard.
  rewrite (bind_Return _ _ _ _ _ (load_run _ _ _ Hv)).
  unfold bind at 1, get_heap. rewrite Htr.
  unfold LayerVariable_make_stringify_guard_body.
  rewrite (bind_Return _ _ _ _ _ (load_run _ _ _ Hv)).
  unfold bind, get_heap, ret.
  destruct Hkind as [(proxy & ->)|(proxy & name & ->)];
    rewrite union_free_vars_one; reflexivity.
Qed.

End Claims.

(** * Further properties of the callable hierarchy *)

Section Extras.
Context `{HostI : Host} `{EnvI : !Env}.

Local Abbreviation M := (M Graph).

#[local] Instance same_graph_refl : Reflexive (same_graph (G := Graph)).
Proof. intros st. reflexivity. Qed.

#[local] Instance same_graph_trans : Transitive (same_graph (G := Graph)).
Proof. intros s1 s2 s3 H12 H23. unfold same_graph in *. congruence. Qed.

#[local] Instance kinds_kept_refl : Reflexive (kinds_kept (G := Graph)).
Proof. intros st i v H. eauto. Qed.

#[local] Instance kinds_kept_trans : Transitive (kinds_kept (G := Graph)).
Proof.
  intros s1 s2 s3 H12 H23 i v H.
  destruct (H12 _ _ H) as (v' & H' & E').
  destruct (H23 _ _ H') as (v'' & H'' & E'').
  exists v''. split; [done|congruence].
Qed.

Lemma sat_keeps_same_graph {A} (c : M A) :
  sat (keeps 0) c → sat same_graph c.
Proof. intros H st o st' Hrun. eapply (keeps_graph 0); [lia|eauto]. Qed.

Lemma sat_keeps_kinds_kept {A} (c : M A) :
  (∀ n, sat (keeps n) c) → sat kinds_kept c.
Proof.
  intros H st o st' Hrun i v Hv.
  destruct (H (length (heap st)) _ _ _ Hrun) as (_ & _ & Hi); [lia|].
  exists v. split; [|done]. rewrite Hi; [done|].
  eapply lookup_lt_Some; eauto.
Qed.

Lemma sat_from_value_graph fuel value t :
  sat same_graph (from_value fuel value t).
Proof. apply sat_keeps_same_graph, (from_value_ok fuel). Qed.

Lemma sat_alloc_graph v : sat same_graph (alloc (G := Graph) v).
Proof. apply sat_keeps_same_graph, sat_alloc. Qed.

Lemma sat_fails_clean {A} (c : M A) : sat same_graph c → fails_clean c.
Proof. intros H st e st' Hrun _. eapply H; eauto. Qed.

Lemma fails_clean_bind {A B} (c : M A) (k : A → M B) :
  sat same_graph c → (∀ a, fails_clean (k a)) → fails_clean (bind c k).
Proof.
  intros Hc Hk st e st' Hrun He.
  apply bind_inv in Hrun as [(a & st1 & H1 & H2)|[(e' & H1 & _)|[_ ?]]];
    [| |discriminate].
  - rewrite (Hk _ _ _ _ H2 He). eapply Hc; eauto.
  - eapply Hc; eauto.
Qed.

Lemma fails_clean_raise {A} e : fails_clean (raise (G := Graph) (A := A) e).
Proof. intros st e' st' H _. by inversion H. Qed.

Lemma fails_clean_ret {A} (a : A) : fails_clean (ret (G := Graph) a).
Proof. intros st e' st' H _. by inversion H. Qed.

Lemma load_inv i (st : State Graph) o st' :
  load i st = (o, st') →
  st' = st
  ∧ ((∃ v, heap st !! i = Some v ∧ o = Return v)
     ∨ (heap st !! i = None ∧ o = Raise (InnerError "no such variable"))).
Proof.
  unfold load. destruct (heap st !! i) eqn:E; intros H; inversion H; eauto.
Qed.

Lemma first_of_inv l (st : State Graph) o st' :
  first_of l st = (o, st') →
  st' = st
  ∧ ((l = [] ∧ o = Raise IndexError) ∨ (∃ a l', l = a :: l' ∧ o = Return a)).
Proof. destruct l; intros H; inversion H; eauto 6. Qed.

Lemma host_call_inv f xs (st : State Graph) o st' :
  host_call f xs st = (o, st') →
  st' = st
  ∧ ((∃ r, py_call f xs = inr r ∧ o = Return r)
     ∨ (∃ e, py_call f xs = inl e ∧ o = Raise e)).
Proof.
  unfold host_call. destruct (py_call f xs); intros H; inversion H; eauto.
Qed.

(** The debug intrinsics raise only before they have done anything, and say
    [None] only when the function is none of them. *)
Lemma handle_psdb_function_inv value args kwargs (st : State Graph) o st' :
  handle_psdb_function value args kwargs st = (o, st') →
  (o = Return None → st' = st)
  ∧ (∀ e, o = Raise e → st' = st)
  ∧ o ≠ OutOfFuel.
Proof.
  unfold handle_psdb_function, wrap_literal. intros H.
  destruct (decide (value = ASSERT)) as [Ea|Na].
  { destruct args as [|a0 args']; [by inversion H|].
    apply bind_inv in H as [(v & st1 & H1 & H)|[(e & H1 & ->)|[H1 _]]];
      apply load_inv in H1 as [-> Hl]; [|done|by destruct Hl as [(?&?&?)|[? ?]]].
    destruct (var_value (kind v)); [|by inversion H].
    apply bind_inv in H as [(r & st1 & H1 & H)|[(e & H1 & ->)|[H1 _]]];
      apply host_call_inv in H1 as [-> Hh];
      [|done|by destruct Hh as [(?&?&?)|(?&?&?)]].
    unfold bind, ret in H. rewrite alloc_run in H. by inversion H. }
  destruct (decide (value = psdb_print)) as [Ep|Np].
  { unfold bind, ret, modify_graph in H. rewrite !alloc_run in H. simpl in H.
    by inversion H. }
  destruct (decide (value = psdb_breakpoint)) as [Eb|Nb].
  { unfold bind, ret in H. rewrite alloc_run in H. by inversion H. }
  by inversion H.
Qed.

Lemma magic_method_scan_clean fv callk ms args :
  (∀ value t, sat same_graph (fv value t)) →
  (∀ s a k, fails_clean (callk s a k)) →
  ∀ (st : State Graph) o st',
    magic_method_scan fv callk ms args st = (o, st') →
    (o = Return None → st' = st)
    ∧ (∀ e, o = Raise e → is_FallbackErrorBase e = true →
            graph st' = graph st).
Proof.
  intros Hfv Hcall. induction ms as [|m ms IH]; intros st o st' H.
  { inversion H; subst. done. }
  simpl in H.
  apply bind_inv in H as [(operand & st1 & H1 & H)|[(e & H1 & ->)|[H1 ->]]];
    apply first_of_inv in H1 as [-> _]; [|done..].
  apply bind_inv in H as [(arg_type & st1 & H1 & H)|[(e & H1 & ->)|[H1 ->]]];
    apply get_py_type_inv in H1 as ->; [|done..].
  destruct (py_getattr arg_type (mm_name m)) as [class_fn|]; [|by apply IH].
  apply bind_inv in H as [(a0 & st1 & H1 & H)|[(e & H1 & ->)|[H1 ->]]];
    apply first_of_inv in H1 as [-> _]; [|done..].
  apply bind_inv in H as [(cv & st1 & H1 & H)|[(e & H1 & ->)|[H1 ->]]];
    apply Hfv in H1; [|done..].
  destruct (py_name class_fn) as [n|].
  2:{ inversion H; subst. split; [done|]. intros e He _. exact H1. }
  apply bind_inv in H as [(fnv & st2 & H2 & H)|[(e & H2 & ->)|[H2 ->]]];
    apply Hfv in H2; [|split; [done|]; intros; unfold same_graph in *;
                        congruence..].
  apply bind_inv in H as [(r & st3 & H3 & H)|[(e & H3 & ->)|[H3 ->]]].
  - inversion H; subst. done.
  - split; [done|]. intros e' He' Hfb. inversion He'; subst e'.
    rewrite (Hcall _ _ _ _ _ _ H3 Hfb). unfold same_graph in *. congruence.
  - done.
Qed.

Lemma UserDefinedFunctionVariable_call_function_clean self value args kwargs :
  (∀ g g', restore_memo (save_memo g) g' = g) →
  fails_clean
    (UserDefinedFunctionVariable_call_function self value args kwargs).
Proof.
  intros Hround st e st' Hrun Hfb.
  unfold UserDefinedFunctionVariable_call_function in Hrun.
  apply bind_inv in Hrun as [(res & st1 & H1 & H)|[(e' & H1 & _)|[_ ?]]];
    [| |discriminate].
  2:{ apply handle_psdb_function_inv in H1 as (_ & Hr & _).
      by rewrite (Hr _ eq_refl). }
  destruct res as [r|]; [by inversion H|].
  apply handle_psdb_function_inv in H1 as (Hn & _ & _).
  rewrite (Hn eq_refl) in H. clear Hn st1.
  unfold bind, get_graph, try_except, modify_graph, raise in H.
  destruct (inline_call self args kwargs st) as [[out|e0|] st2];
    [discriminate| |discriminate].
  destruct (is_FallbackErrorBase e0) eqn:E0.
  - inversion H; subst. simpl. apply Hround.
  - inversion H; subst. congruence.
Qed.

(** X1.  Break-graph safety of the whole hierarchy.  When restoring a
    checkpoint gives back the graph it was taken of, and the graph builder
    and the dispatcher's handlers raise only with the graph as they found
    it, then whatever callable variable is called and however the call
    passes through bound methods, layers and magic methods: if it raises a
    [FallbackErrorBase], the graph is the graph before the call. *)
Theorem call_function_failure_leaves_graph (fuel : nat) :
  (∀ g g', restore_memo (save_memo g) g' = g) →
  collaborators_atomic →
  ∀ self args kwargs, fails_clean (call fuel self args kwargs).
Proof.
  intros Hround (Hapi & Htm & Hlayer & Hother & Hdisp).
  induction fuel as [|fuel IH]; intros self args kwargs;
    [intros st e st' H; discriminate|].
  simpl. apply fails_clean_bind; [apply sat_load, _|]. intros v.
  destruct (kind v); try apply Hother.
  - by apply UserDefinedFunctionVariable_call_function_clean.
  - unfold PaddleApiVariable_call_function.
    destruct (is_break_graph_api value); [|apply Hapi].
    destruct (py_name value); apply fails_clean_raise.
  - unfold TensorFunctionVariable_call_function.
    destruct (is_break_graph_tensor_methods method_name);
      [apply fails_clean_raise|apply Htm].
  - apply IH.
  - unfold UserDefinedLayerVariable_call_function.
    destruct (py_getattr (py_type value) "__call__");
      [|apply fails_clean_raise].
    apply fails_clean_bind; [apply sat_alloc_graph|]. intros fn_var.
    apply IH.
  - apply Hlayer.
  - unfold BuiltinVariable_call_function.
    intros st e st' Hrun Hfb. unfold bind at 1, get_heap in Hrun.
    destruct (Dispatcher_dispatch value args kwargs (heap st)) eqn:Hd.
    + eapply Hdisp; eauto.
    + apply bind_inv in Hrun
        as [(found & st1 & H1 & H)|[(e' & H1 & He)|[_ ?]]];
        [| |discriminate].
      * eapply magic_method_scan_clean in H1 as [Hnone _];
          [|apply sat_from_value_graph|apply IH].
        destruct found as [r|]; [by inversion H|].
        rewrite (Hnone eq_refl) in H. by inversion H.
      * eapply magic_method_scan_clean in H1 as [_ Hraise];
          [|apply sat_from_value_graph|apply IH].
        inversion He; subst e'. by apply (Hraise e).
  - unfold UserDefinedGeneratorVariable_call_function.
    intros st e st' Hrun Hfb.
    apply bind_inv in Hrun
      as [(iter_ & st1 & H1 & H)|[(e' & H1 & _)|[_ ?]]];
      [| |discriminate]; apply host_call_inv in H1 as [-> _]; [|done].
    eapply sat_from_value_graph; eauto.
Qed.

(** ** The debug intrinsics *)

(** X2.  A call of [psdb_print] is not inlined: it wraps the prefix
    ["[SOT]"], records on the graph one print statement whose arguments are
    the prefix followed by the call's arguments, and returns a new constant
    [None].  No checkpoint is restored, so the statement stays. *)
Theorem psdb_print_records_a_print_statement
    (fuel : nat) (self : VarId) (v : VariableBase)
    (args : list VarId) (kwargs : Kwargs) (st : State Graph) :
  heap st !! self = Some v →
  kind v = UserDefinedFunctionVariable psdb_print →
  psdb_print ≠ ASSERT →
  let n := length (heap st) in
  call (S fuel) self args kwargs st
  = (Return (S (S n)),
     mkState (add_print_variables (S n) (graph st))
       (heap st
        ++ [ mkVar (ConstTracker (py_of_string "[SOT]"))
                   (ConstantVariable (py_of_string "[SOT]"));
             mkVar DanglingTracker (PrintStmtVariable (n :: args) kwargs);
             mkVar (ConstTracker py_None) (ConstantVariable py_None) ])
       (layer_name_generator st)).
Proof.
  intros Hv Hk Hne n.
  rewrite (call_unfold _ _ _ _ _ _ Hv), Hk.
  unfold UserDefinedFunctionVariable_call_function, handle_psdb_function.
  destruct (decide (psdb_print = ASSERT)); [done|].
  destruct (decide (psdb_print = psdb_print)); [|done].
  unfold wrap_literal, bind, ret, modify_graph. rewrite !alloc_run. simpl.
  rewrite !length_app. simpl.
  replace (length (heap st) + 1) with (S n) by (unfold n; lia).
  replace (S n + 1) with (S (S n)) by lia.
  rewrite <- !app_assoc. reflexivity.
Qed.

(** X3.  [ASSERT] is evaluated while tracing, on the value of the first
    argument alone.  Without an argument the call raises [IndexError]; on a
    variable that has no [value] it raises [AttributeError]; an assertion
    that fails raises what the assertion raised; in all three cases the
    state is as it was.  An assertion that holds yields a new constant of
    what [ASSERT] returned and leaves the graph alone. *)
Theorem ASSERT_is_evaluated_while_tracing
    (fuel : nat) (self : VarId) (v : VariableBase) (kwargs : Kwargs)
    (st : State Graph) :
  heap st !! self = Some v →
  kind v = UserDefinedFunctionVariable ASSERT →
  call (S fuel) self [] kwargs st = (Raise IndexError, st)
  ∧ (∀ a0 rest va,
       heap st !! a0 = Some va → var_value (kind va) = None →
       call (S fuel) self (a0 :: rest) kwargs st = (Raise AttributeError, st))
  ∧ (∀ a0 rest va x e,
       heap st !! a0 = Some va → var_value (kind va) = Some x →
       py_call ASSERT [x] = inl e →
       call (S fuel) self (a0 :: rest) kwargs st = (Raise e, st))
  ∧ (∀ a0 rest va x r,
       heap st !! a0 = Some va → var_value (kind va) = Some x →
       py_call ASSERT [x] = inr r →
       call (S fuel) self (a0 :: rest) kwargs st
       = (Return (length (heap st)),
          mkState (graph st)
            (heap st ++ [mkVar (ConstTracker r) (ConstantVariable r)])
            (layer_name_generator st))).
Proof.
  intros Hv Hk.
  assert (Hcall : ∀ args,
            call (S fuel) self args kwargs st
            = UserDefinedFunctionVariable_call_function self ASSERT
                args kwargs st).
  { intros args. by rewrite (call_unfold _ _ _ _ _ _ Hv), Hk. }
  split; [|split; [|split]].
  - rewrite Hcall.
    unfold UserDefinedFunctionVariable_call_function, handle_psdb_function.
    destruct (decide (ASSERT = ASSERT)); [|done]. reflexivity.
  - intros a0 rest va Ha Hval. rewrite Hcall.
    unfold UserDefinedFunctionVariable_call_function, handle_psdb_function.
    destruct (decide (ASSERT = ASSERT)); [|done].
    unfold bind. rewrite (load_run _ _ _ Ha), Hval. reflexivity.
  - intros a0 rest va x e' Ha Hval Hpy. rewrite Hcall.
    unfold UserDefinedFunctionVariable_call_function, handle_psdb_function.
    destruct (decide (ASSERT = ASSERT)); [|done].
    unfold bind, host_call. rewrite (load_run _ _ _ Ha), Hval, Hpy.
    reflexivity.
  - intros a0 rest va x r Ha Hval Hpy. rewrite Hcall.
    unfold UserDefinedFunctionVariable_call_function, handle_psdb_function.
    destruct (decide (ASSERT = ASSERT)); [|done].
    unfold bind, host_call, wrap_literal.
    rewrite (load_run _ _ _ Ha), Hval, Hpy. reflexivity.
Qed.

(** ** Edges of the builtin tiers *)

(** X4.  The magic-method tier does not pass keyword arguments on: when the
    dispatcher has a handler for neither of two keyword mappings, the call
    of a builtin is the same with either. *)
Theorem BuiltinVariable_magic_tier_drops_kwargs
    (fuel : nat) (self : VarId) (v : VariableBase) (value : PyObj)
    (args : list VarId) (kwargs kwargs' : Kwargs) (st : State Graph) :
  heap st !! self = Some v →
  kind v = BuiltinVariable value →
  Dispatcher_dispatch value args kwargs (heap st) = None →
  Dispatcher_dispatch value args kwargs' (heap st) = None →
  call (S fuel) self args kwargs st = call (S fuel) self args kwargs' st.
Proof.
  intros Hv Hk Hd Hd'.
  rewrite !(BuiltinVariable_call_unfold _ _ _ _ _ _ _ Hv Hk), Hd, Hd'.
  reflexivity.
Qed.

(** X5.  A builtin without a handler: with no magic method to try, the call
    raises the [BreakGraphError] that names the builtin, whatever the
    arguments; with a magic method to try and no positional argument, it
    raises [IndexError] instead.  The state is as it was in both cases. *)
Theorem BuiltinVariable_without_candidate_or_argument
    (fuel : nat) (self : VarId) (v : VariableBase) (value : PyObj)
    (args : list VarId) (kwargs : Kwargs) (st : State Graph) :
  heap st !! self = Some v →
  kind v = BuiltinVariable value →
  Dispatcher_dispatch value args kwargs (heap st) = None →
  (magic_method_builtin_dispatch value = [] →
   call (S fuel) self args kwargs st
   = (Raise (BreakGraphError
               (Some ("Not support builtin function: "
                      +:+ default (py_str value) (py_name value)))),
      st))
  ∧ (magic_method_builtin_dispatch value ≠ [] → args = [] →
     call (S fuel) self args kwargs st = (Raise IndexError, st)).
Proof.
  intros Hv Hk Hd.
  rewrite (BuiltinVariable_call_unfold _ _ _ _ _ _ _ Hv Hk), Hd. split.
  - intros ->. simpl. unfold bind, ret, raise.
    destruct (py_name value); reflexivity.
  - intros Hms ->.
    destruct (magic_method_builtin_dispatch value) as [|m ms]; [done|].
    unfold bind. rewrite magic_method_scan_without_arguments. reflexivity.
Qed.

(** X6.  The message of an unsupported paddle API reads [__name__] without a
    test: for an API without that attribute the call raises
    [AttributeError], not a break-graph condition.  The builtin's message
    tests for the attribute and falls back on the text of the callable. *)
Theorem unsupported_callable_without_name
    (fuel : nat) (self : VarId) (v : VariableBase) (value : PyObj)
    (args : list VarId) (kwargs : Kwargs) (st : State Graph) :
  heap st !! self = Some v →
  py_name value = None →
  (kind v = PaddleApiVariable value →
   is_break_graph_api value = true →
   call (S fuel) self args kwargs st = (Raise AttributeError, st))
  ∧ (kind v = BuiltinVariable value →
     Dispatcher_dispatch value args kwargs (heap st) = None →
     magic_method_builtin_dispatch value = [] →
     call (S fuel) self args kwargs st
     = (Raise (BreakGraphError
                 (Some ("Not support builtin function: " +:+ py_str value))),
        st)).
Proof.
  intros Hv Hname. split.
  - intros Hk Hb. rewrite (call_unfold _ _ _ _ _ _ Hv), Hk.
    unfold PaddleApiVariable_call_function. rewrite Hb, Hname. reflexivity.
  - intros Hk Hd Hms.
    rewrite (BuiltinVariable_call_unfold _ _ _ _ _ _ _ Hv Hk), Hd, Hms, Hname.
    reflexivity.
Qed.

(** X7.  The generator function is called without the arguments of the
    call: when that call of the traced program raises, the exception is the
    outcome, whatever arguments were given, and no variable is made. *)
Theorem generator_call_failure_propagates
    (fuel : nat) (self : VarId) (v : VariableBase) (value : PyObj)
    (args : list VarId) (kwargs : Kwargs) (st : State Graph) (e : Exn) :
  heap st !! self = Some v →
  kind v = UserDefinedGeneratorVariable value →
  py_call value [] = inl e →
  call (S fuel) self args kwargs st = (Raise e, st).
Proof.
  intros Hv Hk Hpy. rewrite (call_unfold _ _ _ _ _ _ Hv), Hk.
  unfold UserDefinedGeneratorVariable_call_function, bind, host_call.
  rewrite Hpy. reflexivity.
Qed.

(** ** The constructors *)

Lemma alloc_some_None (b : bool) t k (st st' : State Graph) :
  (if b then (let* v := alloc (mkVar t k) in ret (Some v)) else ret None
   : M (option VarId)) st = (Return None, st') →
  st' = st ∧ b = false.
Proof.
  destruct b; [|by inversion 1].
  unfold bind, ret. rewrite alloc_run. discriminate.
Qed.

(** X8.  A constructor that does not claim a value leaves no trace: when a
    [from_value] of this file answers [None], its test on the value has
    failed and the state is as it was: no variable is made and no layer
    name is used up. *)
Theorem declining_constructor_leaves_no_trace
    (fv : PyObj → Tracker → M VarId) (value : PyObj) (t : Tracker)
    (st st' : State Graph) :
  (UserDefinedFunctionVariable_from_value value t st = (Return None, st') →
   st' = st ∧ isinstance_FunctionType value = false)
  ∧ (PaddleApiVariable_from_value value t st = (Return None, st') →
     st' = st ∧ callable value && is_paddle_api value = false)
  ∧ (MethodVariable_from_value fv value t st = (Return None, st') →
     st' = st ∧ ismethod value = false)
  ∧ (UserDefinedLayerVariable_from_value value t st = (Return None, st') →
     st' = st ∧ isinstance_Layer value = false)
  ∧ (BuiltinVariable_from_value value t st = (Return None, st') →
     st' = st ∧ is_builtin_fn value = false)
  ∧ (UserDefinedGeneratorVariable_from_value value t st
     = (Return None, st') →
     st' = st ∧ isgeneratorfunction value = false)
  ∧ (PaddleLayerVariable_from_value value t st = (Return None, st') →
     st' = st
     ∧ (isinstance_Layer value = false
        ∨ isinstance_Sequential value || has_forward_pre_hooks value
          || has_forward_post_hooks value = true
        ∨ module_in_paddle_nn value = false)).
Proof.
  split; [apply alloc_some_None|].
  split; [apply alloc_some_None|].
  split.
  { unfold MethodVariable_from_value. destruct (ismethod value).
    - intros H.
      apply bind_inv in H as [(m & st1 & _ & H)|[(e & _ & ?)|[_ ?]]];
        discriminate.
    - intros H. inversion H; subst. done. }
  split; [apply alloc_some_None|].
  split; [apply alloc_some_None|].
  split; [apply alloc_some_None|].
  unfold PaddleLayerVariable_from_value.
  destruct (isinstance_Layer value); [|intros H; inversion H; subst; auto].
  destruct (_ || _); [intros H; inversion H; subst; auto|].
  destruct (module_in_paddle_nn value); [|intros H; inversion H; subst; auto].
  unfold bind, ret, next_layer_name. rewrite alloc_run. discriminate.
Qed.

(** ** MethodVariable.wrap_method and LayerVariable.proxy_getter *)

(** [wrap_method] reads [__self__] and [__func__] of the value only for the
    part the caller did not supply. *)
Lemma wrap_method_reads_only_the_missing_parts
    (fv : PyObj → Tracker → M VarId) (value : PyObj) (t : Tracker)
    (method_name : option string) (st : State Graph) :
  (∀ instance fn,
     wrap_method fv value t (Some instance) (Some fn) method_name st
     = (Return (length (heap st)),
        mkState (graph st)
          (heap st ++ [mkVar t (MethodVariable instance fn method_name)])
          (layer_name_generator st)))
  ∧ (py_getattr value "__self__" = None →
     ∀ fn, wrap_method fv value t None fn method_name st
           = (Raise AttributeError, st))
  ∧ (py_getattr value "__func__" = None →
     ∀ instance,
       wrap_method fv value t (Some instance) None method_name st
       = (Raise AttributeError, st)).
Proof.
  split; [reflexivity|]. split.
  - intros Hs fn. unfold wrap_method. rewrite Hs. reflexivity.
  - intros Hf instance. unfold wrap_method. rewrite Hf. reflexivity.
Qed.

(** X11.  The proxy getter of a layer on an attribute that is no method: a
    name the layer does not have gives the empty marker and changes
    nothing; an attribute that is not a bound method and has no [__self__]
    (a sub-layer, a plain function, a value) is wrapped by the factory with
    the tracker [GetAttrTracker(self, name)]: the variable is a new one,
    and every variable there was is as it was. *)
Theorem proxy_getter_of_plain_attribute
    (fuel : nat) (self : VarId) (value : PyObj) (name : string)
    (st : State Graph) :
  (py_getattr value name = None →
   proxy_getter (from_value fuel) self value name st = (Return None, st))
  ∧ (∀ attr i st',
       py_getattr value name = Some attr →
       ismethod attr = false →
       py_getattr attr "__self__" = None →
       from_value fuel attr (GetAttrTracker self name) st = (Return i, st') →
       proxy_getter (from_value fuel) self value name st
       = (Return (Some i), st')
       ∧ tracker_of (heap st') i = Some (GetAttrTracker self name)
       ∧ length (heap st) ≤ i
       ∧ ∀ j, j < length (heap st) → heap st' !! j = heap st !! j).
Proof.
  split.
  - intros Hn. unfold proxy_getter. rewrite Hn. reflexivity.
  - intros attr i st' Ha Hm Hs Hfv.
    pose proof (from_value_ok fuel) as Hok. split.
    { unfold proxy_getter. rewrite Ha, Hm, Hs. simpl.
      rewrite (bind_Return _ _ _ _ _ Hfv). reflexivity. }
    split; [eapply Hok; eauto|].
    split; [eapply Hok; eauto|].
    intros j Hj. eapply factory_keeps_lookup; eauto.
Qed.

(** X12.  The proxy getter of a layer on a bound method whose class
    attribute is no method descriptor: no variable is made for the method's
    [__self__]; the layer variable itself is the bound instance of the
    method variable, whose tracker is [GetAttrTracker(self, name)] and
    whose method name is [name]; the function variable is made by the
    factory and re-rooted at the method variable; the layer variable and
    the graph are as they were. *)
Theorem proxy_getter_of_bound_method
    (fuel : nat) (self : VarId) (value attr s f : PyObj) (name : string)
    (st st1 : State Graph) (fn_var : VarId) :
  py_getattr value name = Some attr →
  ismethod attr = true →
  py_getattr attr "__self__" = Some s →
  class_attr_is_methoddescriptor s name = false →
  py_getattr attr "__func__" = Some f →
  from_value fuel f DanglingTracker st = (Return fn_var, st1) →
  self < length (heap st) →
  ∃ st2,
    proxy_getter (from_value fuel) self value name st
    = (Return (Some (length (heap st1))), st2)
    ∧ heap st2 !! length (heap st1)
      = Some (mkVar (GetAttrTracker self name)
                    (MethodVariable self fn_var (Some name)))
    ∧ tracker_of (heap st2) fn_var
      = Some (GetAttrTracker (length (heap st1)) "__func__")
    ∧ heap st2 !! self = heap st !! self
    ∧ graph st2 = graph st.
Proof.
  intros Ha Hm Hs Hd Hf Hfv Hself.
  pose proof (from_value_ok fuel) as Hok.
  destruct (proj2 Hok _ _ _ _ _ Hfv) as [Hge Ht].
  pose proof (tracker_of_lt Ht) as Hlt.
  destruct (factory_keeps_length _ _ _ _ _ _ Hok Hfv) as [Hlen Hg].
  destruct (heap st1 !! fn_var) as [vf|] eqn:Ef;
    [|apply lookup_ge_None in Ef; lia].
  set (m := length (heap st1)).
  set (mv := mkVar (GetAttrTracker self name)
                   (MethodVariable self fn_var (Some name))).
  exists (mkState (graph st1)
            (<[fn_var := with_tracker (GetAttrTracker m "__func__") vf]>
               (heap st1 ++ [mv]))
            (layer_name_generator st1)).
  split.
  { unfold proxy_getter. rewrite Ha, Hm, Hs, Hd. simpl.
    unfold wrap_method. rewrite Hf.
    unfold bind, ret. rewrite Hfv.
    unfold alloc, set_tracker. simpl. fold m mv.
    rewrite lookup_app_l by lia. rewrite Ef. reflexivity. }
  simpl. split.
  { rewrite list_lookup_insert_ne by (unfold m; lia).
    rewrite lookup_app_r by (unfold m; lia).
    replace (m - length (heap st1)) with 0 by (unfold m; lia). done. }
  split.
  { apply tracker_of_insert_eq. rewrite lookup_app_l by lia. done. }
  split; [|done].
  rewrite list_lookup_insert_ne by lia.
  rewrite lookup_app_l by lia.
  eapply factory_keeps_lookup; eauto.
Qed.

(** X10.  The proxy getter of a layer on an attribute whose class attribute
    is a method descriptor: a class variable tracked as
    [GetAttrTracker(self, "__class__")] and a function variable for the
    descriptor, tracked on that class variable, are made, and then the
    method variable with the layer variable itself as bound instance.  Both
    parts being supplied, no tracker is rewritten: the function variable
    keeps the tracker on the class variable, and the heap is the heap after
    the two were made with the method variable added. *)
Theorem proxy_getter_of_method_descriptor
    (fuel : nat) (self : VarId) (value attr s d self_type : PyObj)
    (name : string) (st st1 st2 : State Graph) (class_var fn_var : VarId) :
  py_getattr value name = Some attr →
  py_getattr attr "__self__" = Some s →
  py_getattr (py_type s) name = Some d →
  ismethoddescriptor d = true →
  get_py_type self st = (Return self_type, st) →
  from_value fuel self_type (GetAttrTracker self "__class__") st
  = (Return class_var, st1) →
  from_value fuel d (GetAttrTracker class_var name) st1
  = (Return fn_var, st2) →
  proxy_getter (from_value fuel) self value name st
  = (Return (Some (length (heap st2))),
     mkState (graph st2)
       (heap st2
        ++ [mkVar (GetAttrTracker self name)
                  (MethodVariable self fn_var (Some name))])
       (layer_name_generator st2))
  ∧ graph st2 = graph st
  ∧ tracker_of (heap st2) class_var
    = Some (GetAttrTracker self "__class__")
  ∧ tracker_of (heap st2) fn_var = Some (GetAttrTracker class_var name).
Proof.
  intros Ha Hs Hd Hdesc Hty Hc Hf.
  pose proof (from_value_ok fuel) as Hok. pose proof Hok as [Hkeep Hres].
  assert (Hcd : class_attr_is_methoddescriptor s name = true).
  { unfold class_attr_is_methoddescriptor. by rewrite Hd. }
  split.
  { unfold proxy_getter. rewrite Ha, Hs, Hcd, orb_true_r, Hd.
    unfold bind at 1. unfold bind at 1. rewrite Hty.
    rewrite (bind_Return _ _ _ _ _ Hc).
    rewrite (bind_Return _ _ _ _ _ Hf). unfold ret at 1.
    unfold bind.
    rewrite (proj1 (wrap_method_reads_only_the_missing_parts
                      (from_value fuel) attr (GetAttrTracker self name)
                      (Some name) st2)).
    reflexivity. }
  destruct (factory_keeps_length _ _ _ _ _ _ Hok Hc) as [_ Hg1].
  destruct (factory_keeps_length _ _ _ _ _ _ Hok Hf) as [_ Hg2].
  split; [congruence|].
  destruct (Hres _ _ _ _ _ Hc) as [_ Htc].
  destruct (Hres _ _ _ _ _ Hf) as [_ Htf].
  split; [|exact Htf].
  apply (keeps_trackers_kept st1 st2); [|exact Htc].
  eapply Hkeep; eauto.
Qed.

(** ** Binding and calling *)

(** X13.  Calling the method variable that [bind] returns is calling the
    function variable with the instance put before the arguments. *)
Theorem bound_method_call_prepends_the_instance
    (fuel n : nat) (self instance : VarId) (name : string)
    (args : list VarId) (kwargs : Kwargs) (st st' : State Graph)
    (method_var : VarId) :
  self < length (heap st) →
  FunctionVariable_bind (from_value fuel) self instance name st
  = (Return method_var, st') →
  call (S n) method_var args kwargs st'
  = call n self (instance :: args) kwargs st'.
Proof.
  intros Hself Hrun.
  destruct (FunctionVariable_bind_self _ _ _ _ _ _ _
              (from_value_ok fuel) Hself Hrun) as (-> & Hm & _).
  rewrite (call_unfold _ _ _ _ _ _ Hm). reflexivity.
Qed.

(** X14.  Calling the method variable that [wrap_method] makes of a bound
    method is calling the variable of its [__func__] with the variable of
    its [__self__] put before the arguments. *)
Theorem wrapped_method_call_prepends_the_instance
    (fuel n : nat) (value s f : PyObj) (t : Tracker)
    (method_name : option string) (args : list VarId) (kwargs : Kwargs)
    (st st1 st2 : State Graph) (instance_var fn_var : VarId) :
  py_getattr value "__self__" = Some s →
  py_getattr value "__func__" = Some f →
  from_value fuel s DanglingTracker st = (Return instance_var, st1) →
  from_value fuel f DanglingTracker st1 = (Return fn_var, st2) →
  ∃ method_var st3,
    wrap_method (from_value fuel) value t None None method_name st
    = (Return method_var, st3)
    ∧ call (S n) method_var args kwargs st3
      = call n fn_var (instance_var :: args) kwargs st3.
Proof.
  intros Hs Hf H1 H2.
  destruct (wrap_method_fresh_parts (from_value fuel) value t method_name
              st s f instance_var st1 fn_var st2 (from_value_ok fuel)
              Hs Hf H1 H2) as (st3 & Hw & _ & _ & _ & Hm & _).
  exists (length (heap st2)), st3. split; [exact Hw|].
  rewrite (call_unfold _ _ _ _ _ _ Hm). reflexivity.
Qed.

(** X15.  Binding a function variable a second time re-roots it again: its
    tracker is then the attribute of the class variable the second [bind]
    made, while both method variables, the first and the second, are there
    with the same function variable and the trackers they were made
    with. *)
Theorem bind_again_reroots_again
    (fuel : nat) (self instance1 instance2 : VarId) (name1 name2 : string)
    (st st1 st2 : State Graph) (m1 m2 : VarId) :
  self < length (heap st) →
  FunctionVariable_bind (from_value fuel) self instance1 name1 st
  = (Return m1, st1) →
  FunctionVariable_bind (from_value fuel) self instance2 name2 st1
  = (Return m2, st2) →
  m1 < m2
  ∧ heap st2 !! m1
    = Some (mkVar (GetAttrTracker instance1 name1)
                  (MethodVariable instance1 self None))
  ∧ heap st2 !! m2
    = Some (mkVar (GetAttrTracker instance2 name2)
                  (MethodVariable instance2 self None))
  ∧ ∃ class_var,
      m2 < class_var
      ∧ tracker_of (heap st2) class_var
        = Some (GetAttrTracker instance2 "__class__")
      ∧ tracker_of (heap st2) self = Some (GetAttrTracker class_var name2).
Proof.
  intros Hself H1 H2.
  pose proof (from_value_ok fuel) as Hok.
  destruct (FunctionVariable_bind_self _ _ _ _ _ _ _ Hok Hself H1)
    as (-> & Hm1 & c1 & Hc1 & Htc1 & _).
  pose proof (lookup_lt_Some _ _ _ Hm1) as Hlt1.
  assert (Hself1 : self < length (heap st1)) by lia.
  destruct (FunctionVariable_bind_self _ _ _ _ _ _ _ Hok Hself1 H2)
    as (-> & Hm2 & c2 & Hc2 & Htc2 & Hts).
  destruct (FunctionVariable_bind_others _ _ _ _ _ _ _ Hok H2) as [_ Hk].
  split; [lia|]. split.
  { rewrite Hk by lia. exact Hm1. }
  split; [exact Hm2|]. eauto.
Qed.

(** ** What is never done to a variable *)

Lemma sat_set_tracker_kinds i t :
  sat kinds_kept (set_tracker (G := Graph) i t).
Proof.
  intros st o st' H j v Hv.
  apply set_tracker_inv in H as [(vi & Ei & _ & ->)|(_ & -> & _)];
    [|eauto].
  simpl. destruct (decide (i = j)) as [->|Hne].
  - exists (with_tracker t vi).
    rewrite list_lookup_insert_eq by (eapply lookup_lt_Some; eauto).
    split; [done|]. simpl. congruence.
  - exists v. rewrite list_lookup_insert_ne by done. done.
Qed.

(** X16.  The factory, [wrap_method], [bind] and the proxy getter never
    remove a variable and never change the class or a field other than the
    tracker of a variable there is: whatever their outcome, every variable
    of the heap is afterwards still at its place with the kind it had. *)
Theorem variables_are_never_removed_or_remade (fuel : nat) :
  (∀ value t, sat kinds_kept (from_value fuel value t))
  ∧ (∀ value t instance fn method_name,
       sat kinds_kept
         (wrap_method (from_value fuel) value t instance fn method_name))
  ∧ (∀ self instance name,
       sat kinds_kept
         (FunctionVariable_bind (from_value fuel) self instance name))
  ∧ (∀ self value name,
       sat kinds_kept (proxy_getter (from_value fuel) self value name)).
Proof.
  pose proof (from_value_ok fuel) as Hok. pose proof Hok as [Hk _].
  assert (Hfv : ∀ value t, sat kinds_kept (from_value fuel value t)).
  { intros. apply sat_keeps_kinds_kept. intros n. apply Hk. }
  split; [exact Hfv|]. split.
  { intros. apply sat_keeps_kinds_kept. intros n.
    by apply wrap_method_keeps. }
  split.
  - intros self instance name. unfold FunctionVariable_bind.
    apply sat_bind; [apply _| |intros method_var].
    { apply sat_keeps_kinds_kept. intros n. apply sat_alloc. }
    apply sat_bind; [apply _|apply get_py_type_keeps, _|intros ty].
    apply sat_bind; [apply _|apply Hfv|intros class_var].
    apply sat_bind; [apply _|apply sat_set_tracker_kinds|intros _].
    apply sat_ret, _.
  - intros self value name. apply sat_keeps_kinds_kept. intros n.
    unfold proxy_getter.
    repeat first
      [ apply sat_ret, _ | apply sat_raise, _ | apply Hk
      | apply get_py_type_keeps, _ | by apply wrap_method_keeps
      | apply sat_bind; [apply _| |intros ?]
      | match goal with
        | |- sat _ (if ?b then _ else _) => destruct b
        | |- sat _ (match ?x with _ => _ end) => destruct x
        end ].
Qed.

(** ** Layers and tensor methods *)

(** X17.  A call of a user-defined layer looks [__call__] up on the class
    of the layer: without it the call raises [AttributeError] with nothing
    changed; with it a new function variable tracked as
    [GetAttrTracker(self, "__call__")] is made and inlined on the layer
    variable followed by the arguments, and what the inline executor
    returns is the result of the call. *)
Theorem UserDefinedLayerVariable_call_inlines_the_class_call
    (fuel : nat) (self : VarId) (v : VariableBase) (value : PyObj)
    (proxy : gmap string VarId) (args : list VarId) (kwargs : Kwargs)
    (st : State Graph) :
  heap st !! self = Some v →
  kind v = UserDefinedLayerVariable value proxy →
  (py_getattr (py_type value) "__call__" = None →
   call (S (S fuel)) self args kwargs st = (Raise AttributeError, st))
  ∧ (∀ class_call output st1,
       py_getattr (py_type value) "__call__" = Some class_call →
       class_call ≠ ASSERT → class_call ≠ psdb_print →
       class_call ≠ psdb_breakpoint →
       inline_call (length (heap st)) (self :: args) kwargs
         (mkState (graph st)
            (heap st
             ++ [mkVar (GetAttrTracker self "__call__")
                       (UserDefinedFunctionVariable class_call)])
            (layer_name_generator st))
       = (Return output, st1) →
       call (S (S fuel)) self args kwargs st = (Return output, st1)).
Proof.
  intros Hv Hk. rewrite (call_unfold _ _ _ _ _ _ Hv), Hk.
  unfold UserDefinedLayerVariable_call_function. split.
  - intros ->. reflexivity.
  - intros class_call output st1 -> Ha Hp Hb Hinl.
    unfold bind at 1. rewrite alloc_run.
    set (st0 := mkState _ _ _) in *.
    assert (Hfn : heap st0 !! length (heap st)
                  = Some (mkVar (GetAttrTracker self "__call__")
                                (UserDefinedFunctionVariable class_call))).
    { simpl. rewrite lookup_app_r by lia.
      replace (length (heap st) - length (heap st)) with 0 by lia. done. }
    rewrite (call_unfold _ _ _ _ _ _ Hfn). simpl.
    unfold UserDefinedFunctionVariable_call_function.
    rewrite (bind_Return _ _ _ _ _
               (handle_psdb_function_other class_call (self :: args) kwargs
                  st0 Ha Hp Hb)).
    unfold bind, get_graph, try_except. rewrite Hinl. reflexivity.
Qed.

(** X18.  A tensor function variable is made by looking the method name up
    on [paddle.static.Variable]: an unknown name raises [AttributeError]
    and makes no variable; a known name gives a variable that keeps the
    name, and calling it, when the name is not in the unsupported set, is
    [call_tensor_method] of that name on the arguments. *)
Theorem TensorFunctionVariable_is_made_by_name
    (n : nat) (method_name : string) (t : Tracker) (st : State Graph) :
  (py_getattr paddle_static_Variable method_name = None →
   TensorFunctionVariable_init method_name t st = (Raise AttributeError, st))
  ∧ (∀ i st1 args kwargs,
       TensorFunctionVariable_init method_name t st = (Return i, st1) →
       heap st1 !! i
       = (λ fn, mkVar t (TensorFunctionVariable fn method_name))
           <$> py_getattr paddle_static_Variable method_name
       ∧ (is_break_graph_tensor_methods method_name = false →
          call (S n) i args kwargs st1
          = call_tensor_method method_name args kwargs st1)).
Proof.
  unfold TensorFunctionVariable_init. split.
  - intros ->. reflexivity.
  - intros i st1 args kwargs.
    destruct (py_getattr paddle_static_Variable method_name) as [fn|];
      [|discriminate].
    rewrite alloc_run. intros H. inversion H; subst.
    cbn [heap fmap option_fmap option_map].
    assert (Hi : (heap st ++ [mkVar t (TensorFunctionVariable fn method_name)])
                 !! length (heap st)
                 = Some (mkVar t (TensorFunctionVariable fn method_name))).
    { rewrite lookup_app_r by lia.
      replace (length (heap st) - length (heap st)) with 0 by lia. done. }
    split; [exact Hi|]. intros Hb.
    rewrite (call_unfold n (length (heap st)) args kwargs _
               (mkState (graph st)
                  (heap st ++ [mkVar t (TensorFunctionVariable fn method_name)])
                  (layer_name_generator st)) Hi). simpl.
    unfold TensorFunctionVariable_call_function. rewrite Hb. reflexivity.
Qed.

End Extras.

Lemma TensorFunctionVariable_break_carries_no_reason_witness :
  let st :=
    demo_state
      [mkVar DanglingTracker (TensorFunctionVariable "Tensor.numpy" "numpy")]
  in
  ∃ e, call 1 0 [3; 4] ∅ st = (Raise e, st)
       ∧ is_BreakGraphError e = true
       ∧ reason_of e = None.
Proof.
  intros st.
  eapply (TensorFunctionVariable_break_carries_no_reason
            (HostI := demo_host) (EnvI := demo_env) 0 0 _
            "Tensor.numpy" "numpy" [3; 4] ∅ st); reflexivity.
Defined.

Lemma UserDefinedFunctionVariable_call_function_transactional_witness :
  (∀ g g' : list string, restore_memo (save_memo g) g' = g)
  ∧ call 1 0 [] ∅ (demo_state demo_heap)
    = (Raise (BreakGraphError
                (Some "<f> is raise a inline call error. unsupported opcode")),
       demo_state demo_heap)
  ∧ call 1 0 [1] ∅ (demo_state demo_heap)
    = (Return 1, mkState ["inline"] demo_heap 0).
Proof.
  split; [reflexivity|]. split.
  - exact (proj1 (UserDefinedFunctionVariable_call_function_transactional
    (HostI := demo_host) (EnvI := demo_env)
                    0 0 _ "f" [] ∅ (demo_state demo_heap)
                    (λ g g', eq_refl) eq_refl eq_refl
                    ltac:(discriminate) ltac:(discriminate)
                    ltac:(discriminate))).
  - exact (UserDefinedFunctionVariable_call_function_transactional
    (HostI := demo_host) (EnvI := demo_env)
             0 0 _ "f" [1] ∅ (demo_state demo_heap)
             (λ g g', eq_refl) eq_refl eq_refl
             ltac:(discriminate) ltac:(discriminate) ltac:(discriminate)).
Defined.

Lemma demo_lhs_lacks_add :
  Forall (not_defined_on_operand (demo_state demo_heap) [1; 2])
    [mkMagicMethod "__add__" false].
Proof.
  repeat constructor. exists 1, "Lhs". repeat split; reflexivity.
Defined.

Lemma demo_lhs_defines_neither (m : MagicMethod) :
  not_defined_on_operand (demo_state demo_heap) [1; 1] m.
Proof.
  exists 1, "Lhs". split; [by destruct m as [n []]|].
  split; [reflexivity|].
  unfold py_getattr; simpl. unfold demo_getattr.
  repeat (case_decide as Hd; [destruct Hd; discriminate|]). reflexivity.
Defined.

Lemma BuiltinVariable_call_function_tiers_witness :
  let st_len :=
    demo_state [ mkVar (FrameTracker "len") (BuiltinVariable "len");
                 mkVar (FrameTracker "x") (ObjectVariable "lhs") ] in
  call 1 0 [1] ∅ st_len
  = (Return 2,
     mkState ["len"]
       (heap st_len ++ [mkVar (DummyTracker [1]) (ObjectVariable "out")]) 0)
  ∧ call 3 3 [1; 2] ∅ (demo_state demo_heap)
    = call 2 5 [1; 2] ∅ (demo_state demo_heap_radd)
  ∧ call 3 3 [1; 1] ∅ (demo_state demo_heap)
    = (Raise (BreakGraphError (Some "Not support builtin function: add")),
       demo_state demo_heap)
  ∧ call 3 3 [] ∅ (demo_state demo_heap)
    = (Raise IndexError, demo_state demo_heap).
Proof.
  intros st_len. split; [|split; [|split]].
  - destruct (BuiltinVariable_call_function_tiers
                (HostI := demo_host) (EnvI := demo_env)
                0 0 _ "len" [1] ∅ st_len eq_refl eq_refl) as [Hhandler _].
    rewrite (Hhandler _ eq_refl). reflexivity.
  - destruct (BuiltinVariable_call_function_tiers
                (HostI := demo_host) (EnvI := demo_env)
                2 3 _ "add" [1; 2] ∅ (demo_state demo_heap)
                eq_refl eq_refl) as [_ Hmagic].
    destruct (Hmagic eq_refl) as (Hfirst & _ & _).
    destruct (Hfirst [mkMagicMethod "__add__" false]
                (mkMagicMethod "__radd__" true) [] 2 "Rhs" "Rhs.__radd__"
                eq_refl demo_lhs_lacks_add eq_refl eq_refl eq_refl)
      as (a0 & Ha0 & Hcall).
    rewrite Hcall. injection Ha0 as <-. reflexivity.
  - destruct (BuiltinVariable_call_function_tiers
                (HostI := demo_host) (EnvI := demo_env)
                2 3 _ "add" [1; 1] ∅ (demo_state demo_heap)
                eq_refl eq_refl) as [_ Hmagic].
    destruct (Hmagic eq_refl) as (_ & Hnone & _).
    apply Hnone. repeat constructor; apply demo_lhs_defines_neither.
  - destruct (BuiltinVariable_call_function_tiers
                (HostI := demo_host) (EnvI := demo_env)
                2 3 _ "add" [] ∅ (demo_state demo_heap)
                eq_refl eq_refl) as [_ Hmagic].
    destruct (Hmagic eq_refl) as (_ & _ & Hidx).
    exact (proj1 (Hidx ltac:(discriminate) eq_refl)).
Defined.


Lemma magic_method_trackers_rooted_at_first_argument_witness :
  is_reverse (mkMagicMethod "__radd__" true) = true
  ∧ checked_operand (mkMagicMethod "__radd__" true) [1; 2] = Some 2
  ∧ kind <$> demo_heap_radd !! 4 = Some (ObjectVariable "Rhs")
  ∧ tracker_of demo_heap_radd 4 = Some (GetAttrTracker 1 "__class__")
  ∧ tracker_of demo_heap_radd 5 = Some (GetAttrTracker 4 "Rhs.__radd__")
  ∧ call 3 3 [1; 2] ∅ (demo_state demo_heap)
    = call 2 5 [1; 2] ∅ (demo_state demo_heap_radd).
Proof.
  split; [reflexivity|]. split; [reflexivity|]. split; [reflexivity|].
  exact (magic_method_trackers_rooted_at_first_argument
           (HostI := demo_host) (EnvI := demo_env)
           2 3 _ "add" [1; 2] ∅ (demo_state demo_heap)
           (mkState [] (demo_heap
                        ++ [mkVar (GetAttrTracker 1 "__class__")
                                  (ObjectVariable "Rhs")]) 0)
           (demo_state demo_heap_radd)
           [mkMagicMethod "__add__" false] []
           (mkMagicMethod "__radd__" true) 2 1 4 5 "Rhs" "Rhs.__radd__"
           "Rhs.__radd__"
           eq_refl eq_refl eq_refl eq_refl demo_lhs_lacks_add
           eq_refl eq_refl eq_refl eq_refl eq_refl eq_refl eq_refl).
Defined.

Lemma UserDefinedGeneratorVariable_call_function_discards_arguments_witness :
  let st :=
    demo_state
      [mkVar (FrameTracker "gen") (UserDefinedGeneratorVariable "gen")] in
  call 2 0 [0; 0] {["n" := 0]} st = call 2 0 [] ∅ st
  ∧ call 2 0 [0; 0] {["n" := 0]} st
    = (Return 1,
       demo_state
         [ mkVar (FrameTracker "gen") (UserDefinedGeneratorVariable "gen");
           mkVar (DummyTracker [0]) (ObjectVariable "generator") ]).
Proof.
  intros st.
  destruct (UserDefinedGeneratorVariable_call_function_discards_arguments
              (HostI := demo_host) (EnvI := demo_env)
              1 0 _ "gen" [0; 0] {["n" := 0]} st eq_refl eq_refl)
    as (Hrun & Hsame & _).
  split; [exact Hsame|]. rewrite Hrun. reflexivity.
Defined.

Lemma wrap_method_reroots_the_parts_it_creates_witness :
  ∃ st3,
    wrap_method (from_value 1) "obj.m" (FrameTracker "bound") None None None
      (demo_state demo_heap)
    = (Return 6, st3)
    ∧ heap st3 !! 6
      = Some (mkVar (FrameTracker "bound") (MethodVariable 4 5 None))
    ∧ tracker_of (heap st3) 4 = Some (GetAttrTracker 6 "__self__")
    ∧ tracker_of (heap st3) 5 = Some (GetAttrTracker 6 "__func__").
Proof.
  destruct (wrap_method_reroots_the_parts_it_creates
              (HostI := demo_host) (EnvI := demo_env)
              1 "obj.m" (FrameTracker "bound") None (demo_state demo_heap))
    as [Hfresh _].
  edestruct Hfresh as (_ & _ & m & st3 & Hw & Hm & Hi & Hf & _);
    [reflexivity..|].
  exists st3.
  assert (m = 6) as ->.
  { pose proof Hw as Hw'. vm_compute in Hw'. by injection Hw' as <-. }
  auto.
Defined.

Lemma LayerVariable_guard_is_two_clauses_witness :
  let st :=
    demo_state
      [mkVar (FrameTracker "net")
             (UserDefinedLayerVariable "net" {["forward" := 7]})] in
  LayerVariable_make_stringify_guard 0 st
  = (Return [ mkStringifyExpression _ "id(net) == 3"
                {["frame" := "frame"]};
              mkStringifyExpression _ "net.training == True"
                {["frame" := "frame"]} ],
     st).
Proof.
  intros st.
  exact (LayerVariable_guard_is_two_clauses
           (HostI := demo_host) (EnvI := demo_env)
           0 _ "net" st eq_refl
           (or_introl (ex_intro _ {["forward" := 7]} eq_refl)) eq_refl).
Defined.

Lemma demo_emit_keeps_trackers stmt res :
  sat trackers_kept (demo_emit stmt res).
Proof.
  apply sat_bind; [apply _| |intros _].
  - apply (sat_modify_graph (EnvI := demo_env)).
  - apply (sat_alloc_trackers (EnvI := demo_env)).
Qed.

Lemma demo_collaborators_keep_trackers :
  collaborators_keep_trackers (HostI := demo_host) (EnvI := demo_env).
Proof.
  repeat split; simpl; intros; try apply demo_emit_keeps_trackers.
  - apply sat_bind;
      [apply _|apply (sat_modify_graph (EnvI := demo_env))|intros _].
    destruct a; [apply sat_raise, _|apply sat_ret, _].
  - apply sat_raise, _.
  - case_decide; [|discriminate].
    match goal with H : Some _ = Some _ |- _ => injection H as <- end.
    apply demo_emit_keeps_trackers.
Qed.

Lemma tracker_assigned_only_by_wrap_method_and_bind_witness :
  tracker_of demo_heap 0 = Some (FrameTracker "f")
  ∧ ∃ st' class_var,
      FunctionVariable_bind (from_value 1) 0 1 "m" (demo_state demo_heap)
      = (Return 4, st')
      ∧ tracker_of (heap st') 0 = Some (GetAttrTracker class_var "m")
      ∧ tracker_of (heap st') 1 = Some (FrameTracker "x")
      ∧ tracker_of (heap st') 2 = Some (FrameTracker "y")
      ∧ tracker_of (heap st') 3 = Some (FrameTracker "add").
Proof.
  split; [reflexivity|].
  destruct (tracker_assigned_only_by_wrap_method_and_bind
              (HostI := demo_host) (EnvI := demo_env) 1
              demo_collaborators_keep_trackers) as (_ & _ & _ & _ & Hbind).
  destruct (FunctionVariable_bind (HostI := demo_host) (EnvI := demo_env)
              (from_value 1) 0 1 "m" (demo_state demo_heap))
    as [o st'] eqn:Hrun.
  assert (o = Return 4) as ->.
  { vm_compute in Hrun. by injection Hrun as <- _. }
  destruct (Hbind 0 1 "m" _ _ _ Hrun) as [Hothers Hself].
  destruct (Hself 4 eq_refl) as (class_var & _ & Hs).
  { simpl. lia. }
  exists st', class_var. split; [reflexivity|]. split; [exact Hs|].
  repeat split; apply Hothers; (lia || reflexivity).
Defined.

(** [bind] on a function whose tracker reads it off the frame: the tracker
    is not dangling, and it is replaced. *)
Lemma bind_replaces_a_tracker_that_was_not_dangling :
  ¬ tracker_fixed_unless_dangling
      (FunctionVariable_bind (from_value 1) 0 1 "m") (demo_state demo_heap).
Proof.
  intros H.
  specialize (H _ _ 0 (FrameTracker "f") eq_refl eq_refl).
  discriminate H. discriminate.
Qed.

(** ** The further properties on the two programs *)

Lemma demo_emit_never_raises stmt res :
  fails_clean (demo_emit stmt res).
Proof. intros st e st' H. discriminate. Qed.

Lemma demo_collaborators_atomic :
  collaborators_atomic (HostI := demo_host) (EnvI := demo_env).
Proof.
  repeat split; simpl; intros; try apply demo_emit_never_raises.
  - intros st e st' H Hfb. inversion H; subst. discriminate.
  - case_decide; [|discriminate].
    match goal with H : Some _ = Some _ |- _ => injection H as <- end.
    apply demo_emit_never_raises.
Qed.

Lemma call_function_failure_leaves_graph_witness :
  (∀ g g' : list string, restore_memo (save_memo g) g' = g)
  ∧ ∃ st',
      call 1 0 [] ∅ (mkState ["stmt"] demo_heap 0)
      = (Raise (BreakGraphError
                  (Some "<f> is raise a inline call error. unsupported opcode")),
         st')
      ∧ graph st' = ["stmt"].
Proof.
  split; [reflexivity|]. exists (mkState ["stmt"] demo_heap 0).
  split; [reflexivity|].
  exact (call_function_failure_leaves_graph
           (HostI := demo_host) (EnvI := demo_env) 1
           (λ g g', eq_refl) demo_collaborators_atomic 0 [] ∅
           (mkState ["stmt"] demo_heap 0)
           (BreakGraphError
              (Some "<f> is raise a inline call error. unsupported opcode"))
           (mkState ["stmt"] demo_heap 0) eq_refl eq_refl).
Defined.

Lemma psdb_print_records_a_print_statement_witness :
  let st :=
    mkState ["stmt"]
      [ mkVar (FrameTracker "p") (UserDefinedFunctionVariable "psdb_print");
        mkVar (FrameTracker "x") (ObjectVariable "lhs") ] 0 in
  call 1 0 [1] ∅ st
  = (Return 4,
     mkState ["stmt"; "print"]
       (heap st
        ++ [ mkVar (ConstTracker "[SOT]") (ConstantVariable "[SOT]");
             mkVar DanglingTracker (PrintStmtVariable [2; 1] ∅);
             mkVar (ConstTracker "None") (ConstantVariable "None") ])
       0).
Proof.
  intros st.
  exact (psdb_print_records_a_print_statement
           (HostI := demo_host) (EnvI := demo_env)
           0 0 _ [1] ∅ st eq_refl eq_refl ltac:(discriminate)).
Defined.

Lemma BuiltinVariable_magic_tier_drops_kwargs_witness :
  call 3 3 [1; 2] {["axis" := 0]} (demo_state demo_heap)
  = call 3 3 [1; 2] ∅ (demo_state demo_heap).
Proof.
  exact (BuiltinVariable_magic_tier_drops_kwargs
           (HostI := demo_host) (EnvI := demo_env)
           2 3 _ "add" [1; 2] {["axis" := 0]} ∅ (demo_state demo_heap)
           eq_refl eq_refl eq_refl eq_refl).
Defined.

Lemma BuiltinVariable_without_candidate_or_argument_witness :
  let st :=
    demo_state [ mkVar (FrameTracker "add") (BuiltinVariable "add");
                 mkVar (FrameTracker "max") (BuiltinVariable "max") ] in
  call 1 0 [] ∅ st = (Raise IndexError, st)
  ∧ call 1 1 [0] ∅ st
    = (Raise (BreakGraphError (Some "Not support builtin function: max")),
       st).
Proof.
  intros st. split.
  - destruct (BuiltinVariable_without_candidate_or_argument
                (HostI := demo_host) (EnvI := demo_env)
                0 0 _ "add" [] ∅ st eq_refl eq_refl eq_refl) as [_ H].
    exact (H ltac:(discriminate) eq_refl).
  - destruct (BuiltinVariable_without_candidate_or_argument
                (HostI := demo_host) (EnvI := demo_env)
                0 1 _ "max" [0] ∅ st eq_refl eq_refl eq_refl) as [H _].
    exact (H eq_refl).
Defined.

Lemma generator_call_failure_propagates_witness :
  let st :=
    demo_state
      [mkVar (FrameTracker "g") (UserDefinedGeneratorVariable "count_to")] in
  py_call "count_to" [] = inl TypeError
  ∧ call 2 0 [0] ∅ st = (Raise TypeError, st).
Proof.
  intros st. split; [reflexivity|].
  exact (generator_call_failure_propagates
           (HostI := demo_host) (EnvI := demo_env)
           1 0 _ "count_to" [0] ∅ st TypeError eq_refl eq_refl eq_refl).
Defined.

Lemma declining_constructor_leaves_no_trace_witness :
  PaddleLayerVariable_from_value "net" (FrameTracker "net")
    (demo_state demo_heap)
  = (Return None, demo_state demo_heap)
  ∧ module_in_paddle_nn "net" = false.
Proof.
  split; [reflexivity|].
  destruct (declining_constructor_leaves_no_trace
              (HostI := demo_host) (EnvI := demo_env)
              (from_value 1) "net" (FrameTracker "net")
              (demo_state demo_heap) (demo_state demo_heap))
    as (_ & _ & _ & _ & _ & _ & H).
  destruct (H eq_refl) as [_ [Hl|[Hs|Hm]]];
    [discriminate Hl|discriminate Hs|exact Hm].
Defined.

Lemma bound_method_call_prepends_the_instance_witness :
  ∃ st',
    FunctionVariable_bind (from_value 1) 0 1 "m" (demo_state demo_heap)
    = (Return 4, st')
    ∧ call 2 4 [2] ∅ st' = call 1 0 [1; 2] ∅ st'.
Proof.
  eexists. split; [vm_compute; reflexivity|].
  eapply (bound_method_call_prepends_the_instance
            (HostI := demo_host) (EnvI := demo_env)
            1 1 0 1 "m" [2] ∅ (demo_state demo_heap));
    [simpl; lia|reflexivity].
Defined.

Lemma wrapped_method_call_prepends_the_instance_witness :
  ∃ st3,
    wrap_method (from_value 1) "obj.m" (FrameTracker "bound") None None None
      (demo_state demo_heap)
    = (Return 6, st3)
    ∧ call 2 6 [2] ∅ st3 = call 1 5 [4; 2] ∅ st3.
Proof.
  edestruct (wrapped_method_call_prepends_the_instance
               (HostI := demo_host) (EnvI := demo_env)
               1 1 "obj.m" "obj" "C.m" (FrameTracker "bound") None [2] ∅
               (demo_state demo_heap))
    as (m & st3 & Hw & Hcall); [reflexivity..|].
  exists st3.
  assert (m = 6) as ->.
  { pose proof Hw as Hw'. vm_compute in Hw'. by injection Hw' as <-. }
  split; [exact Hw|exact Hcall].
Defined.

Lemma bind_again_reroots_again_witness :
  let st1 :=
    (FunctionVariable_bind (from_value 1) 0 1 "m" (demo_state demo_heap)).2 in
  let st2 := (FunctionVariable_bind (from_value 1) 0 2 "k" st1).2 in
  tracker_of (heap st1) 0 = Some (GetAttrTracker 5 "m")
  ∧ heap st2 !! 4
    = Some (mkVar (GetAttrTracker 1 "m") (MethodVariable 1 0 None))
  ∧ heap st2 !! 6
    = Some (mkVar (GetAttrTracker 2 "k") (MethodVariable 2 0 None))
  ∧ ∃ class_var,
      6 < class_var
      ∧ tracker_of (heap st2) 0 = Some (GetAttrTracker class_var "k").
Proof.
  intros st1 st2. split; [reflexivity|].
  destruct (bind_again_reroots_again
              (HostI := demo_host) (EnvI := demo_env)
              1 0 1 2 "m" "k" (demo_state demo_heap) st1 st2 4 6
              ltac:(simpl; lia) eq_refl eq_refl)
    as (_ & Hm1 & Hm2 & class_var & Hc & _ & Hs).
  split; [exact Hm1|]. split; [exact Hm2|].
  exists class_var. split; [exact Hc|exact Hs].
Defined.

Lemma UserDefinedLayerVariable_call_inlines_the_class_call_witness :
  let st :=
    demo_state
      [ mkVar (FrameTracker "net") (UserDefinedLayerVariable "net" ∅);
        mkVar (FrameTracker "plain") (UserDefinedLayerVariable "plain" ∅) ] in
  call 2 1 [] ∅ st = (Raise AttributeError, st)
  ∧ call 2 0 [] ∅ st
    = (Return 0,
       mkState ["inline"]
         (heap st
          ++ [mkVar (GetAttrTracker 0 "__call__")
                    (UserDefinedFunctionVariable "Net.__call__")])
         0).
Proof.
  intros st. split.
  - destruct (UserDefinedLayerVariable_call_inlines_the_class_call
                (HostI := demo_host) (EnvI := demo_env)
                0 1 _ "plain" ∅ [] ∅ st eq_refl eq_refl) as [H _].
    exact (H eq_refl).
  - destruct (UserDefinedLayerVariable_call_inlines_the_class_call
                (HostI := demo_host) (EnvI := demo_env)
                0 0 _ "net" ∅ [] ∅ st eq_refl eq_refl) as [_ H].
    eapply H; [reflexivity|discriminate..|reflexivity].
Defined.

Section OnTheSecondProgram.
#[local] Existing Instance demo_host2.
#[local] Existing Instance demo_env2.

Lemma unsupported_api_breaks_before_any_mutation_witness :
  let st :=
    demo_state2
      [ mkVar (FrameTracker "a") (PaddleApiVariable "paddle.unsupported");
        mkVar (FrameTracker "b") (PaddleApiVariable "paddle.abs");
        mkVar (FrameTracker "p") (PaddleApiVariable "partial");
        mkVar (FrameTracker "t")
              (TensorFunctionVariable "Variable.numpy" "numpy") ] in
  call 1 0 [1] ∅ st
  = (Raise (BreakGraphError
              (Some "breakgraph by unsupport function: paddle.unsupported")),
     st)
  ∧ call 1 1 [0] ∅ st = call_paddle_api "paddle.abs" [0] ∅ st
  ∧ call 1 2 [0] ∅ st = (Raise AttributeError, st)
  ∧ call 1 3 [0] ∅ st = (Raise (BreakGraphError None), st).
Proof.
  intros st. split; [|split; [|split]].
  - destruct (unsupported_api_breaks_before_any_mutation
                (HostI := demo_host2) (EnvI := demo_env2)
                0 0 _ [1] ∅ st eq_refl) as [Hapi _].
    destruct (Hapi "paddle.unsupported" eq_refl) as [Hbreak _].
    destruct (Hbreak eq_refl) as [Hname _].
    exact (Hname "paddle.unsupported" eq_refl).
  - destruct (unsupported_api_breaks_before_any_mutation
                (HostI := demo_host2) (EnvI := demo_env2)
                0 1 _ [0] ∅ st eq_refl) as [Hapi _].
    destruct (Hapi "paddle.abs" eq_refl) as [_ Hcall].
    exact (Hcall eq_refl).
  - destruct (unsupported_api_breaks_before_any_mutation
                (HostI := demo_host2) (EnvI := demo_env2)
                0 2 _ [0] ∅ st eq_refl) as [Hapi _].
    destruct (Hapi "partial" eq_refl) as [Hbreak _].
    destruct (Hbreak eq_refl) as [_ Hnoname].
    exact (proj1 (Hnoname eq_refl)).
  - destruct (unsupported_api_breaks_before_any_mutation
                (HostI := demo_host2) (EnvI := demo_env2)
                0 3 _ [0] ∅ st eq_refl) as [_ Htensor].
    destruct (Htensor "Variable.numpy" "numpy" eq_refl) as [Hbreak _].
    exact (Hbreak eq_refl).
Defined.

Lemma ASSERT_is_evaluated_while_tracing_witness :
  let st :=
    demo_state2
      [ mkVar (FrameTracker "a") (UserDefinedFunctionVariable "ASSERT");
        mkVar (ConstTracker "False") (ConstantVariable "False");
        mkVar (ConstTracker "True") (ConstantVariable "True");
        mkVar (FrameTracker "m") (MethodVariable 1 0 None) ] in
  call 1 0 [] ∅ st = (Raise IndexError, st)
  ∧ call 1 0 [3] ∅ st = (Raise AttributeError, st)
  ∧ call 1 0 [1] ∅ st = (Raise AssertionError, st)
  ∧ call 1 0 [2; 1] ∅ st
    = (Return 4,
       demo_state2
         (heap st ++ [mkVar (ConstTracker "None") (ConstantVariable "None")])).
Proof.
  intros st.
  destruct (ASSERT_is_evaluated_while_tracing
              (HostI := demo_host2) (EnvI := demo_env2)
              0 0 _ ∅ st eq_refl eq_refl)
    as (Hempty & Hnovalue & Hfails & Hholds).
  split; [exact Hempty|]. split; [|split].
  - exact (Hnovalue 3 [] _ eq_refl eq_refl).
  - exact (Hfails 1 [] _ "False" AssertionError eq_refl eq_refl eq_refl).
  - exact (Hholds 2 [1] _ "True" "None" eq_refl eq_refl eq_refl).
Defined.

Lemma unsupported_callable_without_name_witness :
  let st :=
    demo_state2
      [ mkVar (FrameTracker "p") (PaddleApiVariable "partial");
        mkVar (FrameTracker "b") (BuiltinVariable "partial") ] in
  py_name "partial" = None
  ∧ is_break_graph_api "partial" = true
  ∧ call 1 0 [] ∅ st = (Raise AttributeError, st)
  ∧ call 1 1 [] ∅ st
    = (Raise (BreakGraphError
                (Some "Not support builtin function: partial")),
       st).
Proof.
  intros st. split; [reflexivity|]. split; [reflexivity|]. split.
  - destruct (unsupported_callable_without_name
                (HostI := demo_host2) (EnvI := demo_env2)
                0 0 _ "partial" [] ∅ st eq_refl eq_refl) as [H _].
    exact (H eq_refl eq_refl).
  - destruct (unsupported_callable_without_name
                (HostI := demo_host2) (EnvI := demo_env2)
                0 1 _ "partial" [] ∅ st eq_refl eq_refl) as [_ H].
    exact (H eq_refl eq_refl eq_refl).
Defined.

Lemma proxy_getter_of_plain_attribute_witness :
  let st :=
    demo_state2
      [mkVar (FrameTracker "net") (UserDefinedLayerVariable "net" ∅)] in
  proxy_getter (from_value 1) 0 "net" "bias" st = (Return None, st)
  ∧ ∃ st',
      proxy_getter (from_value 1) 0 "net" "fc" st = (Return (Some 1), st')
      ∧ heap st' !! 1
        = Some (mkVar (GetAttrTracker 0 "fc")
                      (PaddleLayerVariable "linear" ∅ "layer_0"))
      ∧ heap st' !! 0 = heap st !! 0.
Proof.
  intros st.
  destruct (proxy_getter_of_plain_attribute
              (HostI := demo_host2) (EnvI := demo_env2)
              1 0 "net" "bias" st) as [Hnone _].
  destruct (proxy_getter_of_plain_attribute
              (HostI := demo_host2) (EnvI := demo_env2)
              1 0 "net" "fc" st) as [_ Hplain].
  split; [exact (Hnone eq_refl)|].
  set (st' := mkState (graph st)
                (heap st
                 ++ [mkVar (GetAttrTracker 0 "fc")
                           (PaddleLayerVariable (HostI := demo_host2)
                              "linear" ∅ "layer_0")]) 1).
  destruct (Hplain "linear" 1 st' eq_refl eq_refl eq_refl eq_refl)
    as (Hrun & _ & _ & Hkeep).
  exists st'. split; [exact Hrun|]. split; [reflexivity|].
  apply Hkeep. simpl. lia.
Defined.

Lemma proxy_getter_of_bound_method_witness :
  let st :=
    demo_state2
      [mkVar (FrameTracker "net") (UserDefinedLayerVariable "net" ∅)] in
  ∃ st2,
    proxy_getter (from_value 1) 0 "net" "forward" st = (Return (Some 2), st2)
    ∧ heap st2 !! 2
      = Some (mkVar (GetAttrTracker 0 "forward")
                    (MethodVariable 0 1 (Some "forward")))
    ∧ tracker_of (heap st2) 1 = Some (GetAttrTracker 2 "__func__")
    ∧ heap st2 !! 0 = heap st !! 0.
Proof.
  intros st.
  set (st1 := demo_state2
                (heap st
                 ++ [mkVar DanglingTracker
                           (UserDefinedFunctionVariable (HostI := demo_host2)
                              "Net.forward")])).
  destruct (proxy_getter_of_bound_method
              (HostI := demo_host2) (EnvI := demo_env2)
              1 0 "net" "net.forward" "net" "Net.forward" "forward" st st1 1
              eq_refl eq_refl eq_refl eq_refl eq_refl eq_refl
              ltac:(simpl; lia))
    as (st2 & Hrun & Hm & Hf & Hs & _).
  exists st2. split; [exact Hrun|]. split; [exact Hm|].
  split; [exact Hf|exact Hs].
Defined.

Lemma proxy_getter_of_method_descriptor_witness :
  let st :=
    demo_state2
      [mkVar (FrameTracker "net") (UserDefinedLayerVariable "net" ∅)] in
  proxy_getter (from_value 1) 0 "net" "slot" st
  = (Return (Some 3),
     demo_state2
       (heap st
        ++ [ mkVar (GetAttrTracker 0 "__class__") (ObjectVariable "Net");
             mkVar (GetAttrTracker 1 "slot") (ObjectVariable "Net.slot");
             mkVar (GetAttrTracker 0 "slot")
                   (MethodVariable 0 2 (Some "slot")) ])).
Proof.
  intros st.
  set (st1 := demo_state2
                (heap st
                 ++ [mkVar (GetAttrTracker 0 "__class__")
                           (ObjectVariable (HostI := demo_host2) "Net")])).
  set (st2 := demo_state2
                (heap st1
                 ++ [mkVar (GetAttrTracker 1 "slot")
                           (ObjectVariable (HostI := demo_host2)
                              "Net.slot")])).
  exact (proj1 (proxy_getter_of_method_descriptor
                  (HostI := demo_host2) (EnvI := demo_env2)
                  1 0 "net" "net.slot" "net" "Net.slot" "Net" "slot"
                  st st1 st2 1 2
                  eq_refl eq_refl eq_refl eq_refl eq_refl eq_refl eq_refl)).
Defined.

Lemma TensorFunctionVariable_is_made_by_name_witness :
  TensorFunctionVariable_init "sqrt" DanglingTracker (demo_state2 [])
  = (Raise AttributeError, demo_state2 [])
  ∧ call 1 0 [3] ∅
      (demo_state2
         [mkVar DanglingTracker (TensorFunctionVariable "Variable.abs" "abs")])
    = call_tensor_method "abs" [3] ∅
        (demo_state2
           [mkVar DanglingTracker
                  (TensorFunctionVariable "Variable.abs" "abs")]).
Proof.
  split.
  - destruct (TensorFunctionVariable_is_made_by_name
                (HostI := demo_host2) (EnvI := demo_env2)
                0 "sqrt" DanglingTracker (demo_state2 [])) as [H _].
    exact (H eq_refl).
  - destruct (TensorFunctionVariable_is_made_by_name
                (HostI := demo_host2) (EnvI := demo_env2)
                0 "abs" DanglingTracker (demo_state2 [])) as [_ H].
    destruct (H 0 (demo_state2
                     [mkVar DanglingTracker
                            (TensorFunctionVariable (HostI := demo_host2)
                               "Variable.abs" "abs")])
                [3] ∅ eq_refl) as [_ Hcall].
    exact (Hcall eq_refl).
Defined.

End OnTheSecondProgram.
